(** * Lifecycle supervisor and fleet registry of compute-example

    A shallow embedding of [src/common/container.ts] (class
    [CommonContainer], the per-unit supervisor) and of
    [src/common/manager.ts] (class [CommonContainerManager], the fleet
    registry), followed by the properties of the design document that
    concern them.

    Asynchronous methods are embedded as computations in a state and
    exception monad over the actor's durable storage and fields; an
    [await]ed call is a bind, a rejected promise is [Throw]. *)

From Stdlib Require Import ZArith Ascii String List Bool Lia DecimalString.
From stdpp Require Import base option list gmap strings.
Import ListNotations.
Local Open Scope string_scope.

(** ** A state and exception monad for actor methods *)

(** [Throw e] is an exception that is an [Error] object with message
    [e], as are all the exceptions that these files raise themselves
    ([new Error(..)], and the type and reference errors of the runtime);
    the hooks, health checks and policies of subclasses range over
    computations that raise such objects.  A promise settled by the
    runtime may be rejected with any value: see [Rejection] in
    [Container]. *)
Inductive Result (A : Type) : Type :=
| Ok (a : A)
| Throw (e : string).
Arguments Ok {A} a.
Arguments Throw {A} e.

Definition M (S A : Type) : Type := S -> Result A * S.

Definition ret {S A} (a : A) : M S A := fun s => (Ok a, s).

Definition throw {S A} (e : string) : M S A := fun s => (Throw e, s).

Definition bind {S A B} (m : M S A) (k : A -> M S B) : M S B :=
  fun s => match m s with
           | (Ok a, s') => k a s'
           | (Throw e, s') => (Throw e, s')
           end.

Definition gets {S A} (f : S -> A) : M S A := fun s => (Ok (f s), s).

Definition modify {S} (f : S -> S) : M S unit := fun s => (Ok tt, f s).

Declare Scope actor_scope.
Delimit Scope actor_scope with actor.
Notation "x <~ m ;; k" := (bind m (fun x => k))
  (at level 100, m at next level, right associativity) : actor_scope.
Notation "m ;;; k" := (bind m (fun _ => k))
  (at level 100, right associativity) : actor_scope.
Local Open Scope actor_scope.

(** [try { body } finally { fin }]: [fin] runs whatever [body] did; an
    exception of [fin] replaces the outcome of [body]. *)
Definition try_finally {S A} (body : M S A) (fin : M S unit) : M S A :=
  fun s => match body s with
           | (r, s') => match fin s' with
                        | (Ok _, s'') => (r, s'')
                        | (Throw e, s'') => (Throw e, s'')
                        end
           end.

(** [try { body } catch (e) { handler }] *)
Definition try_catch {S A} (body : M S A) (handler : string -> M S A) : M S A :=
  fun s => match body s with
           | (Ok a, s') => (Ok a, s')
           | (Throw e, s') => handler e s'
           end.

(** The [wrap] helper of container.ts: a settled promise becomes the pair
    [[data, null]] ([Ok data], as a value) or [[null, err]] ([Throw err],
    as a value); [wrap] itself never rejects. *)
Definition wrap {S A} (fn : M S A) : M S (Result A) :=
  fun s => match fn s with
           | (Ok data, s') => (Ok (Ok data), s')
           | (Throw err, s') => (Ok (Throw err), s')
           end.

(** An async method called without [await]: its effects take place and
    the caller holds a promise object, whatever the outcome. *)
Inductive Promise (A : Type) : Type :=
| Fulfilled (a : A)
| Rejected (e : string).
Arguments Fulfilled {A} a.
Arguments Rejected {A} e.

Definition call_async {S A} (m : M S A) : M S (Promise A) :=
  fun s => match m s with
           | (Ok a, s') => (Ok (Fulfilled a), s')
           | (Throw e, s') => (Ok (Rejected e), s')
           end.

(** ** Fragments of JavaScript that the methods rely on *)

Module Js.

(** [typeof x] for an identifier: the type tag of its binding in scope,
    and ["undefined"] for an identifier with no binding at all (the one
    use of an unbound identifier that does not throw). *)
Fixpoint lookup_ident (scope : list (string * string)) (x : string) : option string :=
  match scope with
  | [] => None
  | (y, tag) :: rest => if String.eqb x y then Some tag else lookup_ident rest x
  end.

Definition typeof_ident (scope : list (string * string)) (x : string) : string :=
  match lookup_ident scope x with
  | Some tag => tag
  | None => "undefined"
  end.

(** The values that the registry compares or tests.  Objects carry the
    reference that distinguishes them: [JRecord i] is the directory
    record at index [i] of the array being traversed, [JPromise i p] the
    promise object returned by the [i]-th call of an async method. *)
Inductive Val : Type :=
| JUndefined
| JBool (b : bool)
| JString (s : string)
| JRecord (ref : nat)
| JPromise (ref : nat) (settled : Promise bool).

(** ToBoolean: every object is truthy, a promise included, whatever it
    settles to. *)
Definition truthy (v : Val) : bool :=
  match v with
  | JUndefined => false
  | JBool b => b
  | JString s => negb (String.eqb s "")
  | JRecord _ => true
  | JPromise _ _ => true
  end.

(** [a === b] (and SameValueZero, which agrees with it on these values):
    operands of different types are never equal, objects are equal when
    they are the same reference. *)
Definition strict_eq (a b : Val) : bool :=
  match a, b with
  | JUndefined, JUndefined => true
  | JBool x, JBool y => Bool.eqb x y
  | JString x, JString y => String.eqb x y
  | JRecord i, JRecord j => Nat.eqb i j
  | JPromise i _, JPromise j _ => Nat.eqb i j
  | _, _ => false
  end.

End Js.

(** ** src/common/container.ts: the unit supervisor *)

Module Container.

Inductive ContainerState : Type :=
| starting | running | unhealthy | stopped | failed | unknown.

Definition ContainerState_eqb (a b : ContainerState) : bool :=
  match a, b with
  | starting, starting | running, running | unhealthy, unhealthy
  | stopped, stopped | failed, failed | unknown, unknown => true
  | _, _ => false
  end.

Record ContainerStartupOptions : Type := mkOpts {
  env : option (list (string * string));
  entrypoint : option (list string);
  enableInternet : option bool;
}.

(** A monitor handle names one promise returned by [container.monitor()]. *)
Definition MonitorHandle : Type := nat.

(** The supervisor: its durable storage (the ["state"] key and the alarm
    slot), its [monitor] field, and what it has asked of the unit
    runtime. *)
Record Sup : Type := mkSup {
  stored : option ContainerState;   (* ctx.storage, key "state" *)
  alarm_at : option Z;              (* ctx.storage alarm, null when none *)
  monitor : option MonitorHandle;   (* this.monitor *)
  handlers : list MonitorHandle;    (* promises handleMonitorPromise was called on *)
  c_running : bool;                 (* container.running *)
  issued : nat;                     (* number of container.monitor() calls so far *)
  launches : list ContainerStartupOptions;  (* container.start(opts) calls *)
}.

Definition set_stored (v : option ContainerState) (s : Sup) : Sup :=
  mkSup v (alarm_at s) (monitor s) (handlers s) (c_running s) (issued s) (launches s).
Definition set_alarm_at (v : option Z) (s : Sup) : Sup :=
  mkSup (stored s) v (monitor s) (handlers s) (c_running s) (issued s) (launches s).
Definition set_monitor (v : option MonitorHandle) (s : Sup) : Sup :=
  mkSup (stored s) (alarm_at s) v (handlers s) (c_running s) (issued s) (launches s).
Definition add_handler (h : MonitorHandle) (s : Sup) : Sup :=
  mkSup (stored s) (alarm_at s) (monitor s) (h :: handlers s) (c_running s) (issued s)
        (launches s).

(** What a health check can settle to: a string sentinel or a
    [Response] (kept as its status code); a rejection is [Throw]. *)
Inductive HealthResult : Type :=
| HString (s : string)
| HResponse (status : Z).

(** The optional [healthCheck] method of a concrete unit class, as the
    outcome of calling it in the supervisor's current situation. *)
Definition HealthCheck : Type := Sup -> Result HealthResult.

(** The unit runtime: [container.monitor()] hands out a new promise. *)
Definition container_monitor : M Sup MonitorHandle :=
  fun s => (Ok (issued s),
            mkSup (stored s) (alarm_at s) (monitor s) (handlers s) (c_running s)
                  (S (issued s)) (launches s)).

Definition container_start (opts : ContainerStartupOptions) : M Sup unit :=
  fun s => (Ok tt,
            mkSup (stored s) (alarm_at s) (monitor s) (handlers s) true
                  (issued s) (launches s ++ [opts])).

(** [handleMonitorPromise(monitor)] registers its two callbacks on the
    promise it is given; the callbacks are [monitorSettled] below. *)
Definition handleMonitorPromise (m : option MonitorHandle) : M Sup unit :=
  match m with
  | None => throw "Cannot read properties of undefined (reading 'then')"
  | Some h => modify (add_handler h)
  end.

(** The value that a promise is rejected with: an [Error] with its
    message, [undefined] or [null], which have no properties at all, or
    some other value, whose [message] reads as [undefined]. *)
Inductive Rejection : Type :=
| ErrorWith (message : string)
| Undefined
| Null
| OtherValue.

(** How the promise of [container.monitor()] settles. *)
Inductive MonitorOutcome : Type :=
| MonitorResolved
| MonitorRejected (err : Rejection).

(** Identifiers bound at module level in container.ts. *)
Definition module_scope : list (string * string) :=
  [("DurableObject", "function"); ("wrap", "function");
   ("isNotListeningError", "function"); ("noContainerYetError", "function");
   ("wait", "function"); ("CommonContainer", "function")].

Section Supervisor.

(** The state-change hooks, no-ops in [CommonContainer] and open to
    overriding; [old] is the raw stored value, absent on first use. *)
Variable preStateChange : option ContainerState -> ContainerState -> M Sup unit.
Variable postStateChange : option ContainerState -> ContainerState -> M Sup unit.
(** [(this as any).healthCheck] *)
Variable healthCheck : option HealthCheck.

Definition state : M Sup ContainerState :=
  gets (fun s => match stored s with Some st => st | None => unknown end).

Definition stateTx (cb : ContainerState -> M Sup unit) : M Sup unit :=
  s <~ state ;; cb s.

Definition setState (st : ContainerState) : M Sup unit :=
  oldState <~ gets stored ;;
  preStateChange oldState st ;;;
  modify (set_stored (Some st)) ;;;
  postStateChange oldState st.

Definition setAlarm (value : Z) : M Sup unit :=
  alarm <~ gets alarm_at ;;
  match alarm with
  | None => modify (set_alarm_at (Some value))
  | Some _ => ret tt
  end.

(** The constructor, run when the actor is (re)created: the object is
    new, so [monitor] is undefined and no callback is registered;
    storage and the unit are what they were. *)
Definition constructor (now : Z) : M Sup unit :=
  modify (fun s => mkSup (stored s) (alarm_at s) None [] (c_running s) (issued s)
                         (launches s)) ;;;
  r <~ gets c_running ;;
  (if (r : bool) then
     m <~ gets monitor ;;
     match m with
     | None =>
         h <~ container_monitor ;;
         modify (set_monitor (Some h)) ;;;
         m' <~ gets monitor ;;
         handleMonitorPromise m'
     | Some _ => ret tt
     end
   else ret tt) ;;;
  setAlarm now.

(** Lines 114-150: the branch of [alarm] that runs the health check. *)
Definition probe (maybeHealthCheck : option HealthCheck) (st : ContainerState)
  : M Sup unit :=
  match maybeHealthCheck with
  | None => throw "maybeHealthCheck is not a function"
  | Some hc =>
      r <~ wrap (fun s => (hc s, s)) ;;
      match r with
      | Throw err =>
          if negb (ContainerState_eqb st starting) then setState failed else ret tt
      | Ok (HResponse _) => setState unhealthy
      | Ok (HString result) =>
          if String.eqb result "ok" then setState running
          else if String.eqb result "not_listening"
                  || String.eqb result "no_container_yet"
               then setState starting
               else ret tt
      end
  end.

(** The body of the scheduled wake-up (lines 109-155).  The constant
    is [maybeHealthCheck]; the test on line 113 reads
    [typeof maybeHealthcheck]. *)
Definition alarmBody : M Sup unit :=
  stateTx (fun st =>
    let maybeHealthCheck := healthCheck in
    let scope :=
      ("maybeHealthCheck",
       match maybeHealthCheck with Some _ => "function" | None => "undefined" end)
      :: ("state", "string") :: module_scope in
    if String.eqb (Js.typeof_ident scope "maybeHealthcheck") "function"
    then probe maybeHealthCheck st
    else setState st).

(** The scheduled wake-up: [try { body } catch { log } finally { setAlarm() }],
    where [setAlarm()] takes its default argument [Date.now() + 500].
    The [catch] step logs [error] and [error.message], the message of
    the [Error] caught. *)
Definition alarm (now : Z) : M Sup unit :=
  try_finally
    (try_catch alarmBody (fun error => ret tt))
    (setAlarm (now + 500)).

(** The [.then] callback: the monitor resolved. *)
Definition onMonitorResolved : M Sup unit :=
  stateTx (fun st =>
    if ContainerState_eqb st running || ContainerState_eqb st unhealthy
    then setState stopped
    else if ContainerState_eqb st starting
         then (m <~ gets monitor ;; handleMonitorPromise m)
         else ret tt).

(** The [.catch] callback, chained after [.then]: it receives a
    rejection of the monitor and also an exception of the [.then]
    callback.  It reads [err.message] for the log before it writes the
    state. *)
Definition onMonitorRejected (err : Rejection) : M Sup unit :=
  match err with
  | Undefined => throw "Cannot read properties of undefined (reading 'message')"
  | Null => throw "Cannot read properties of null (reading 'message')"
  | ErrorWith _ | OtherValue => setState failed
  end.

Definition monitorSettled (outcome : MonitorOutcome) : M Sup unit :=
  match outcome with
  | MonitorResolved =>
      try_catch onMonitorResolved (fun e => onMonitorRejected (ErrorWith e))
  | MonitorRejected err => onMonitorRejected err
  end.

Definition start (containerStart : ContainerStartupOptions) : M Sup unit :=
  r <~ gets c_running ;;
  if (r : bool) then
    m <~ gets monitor ;;
    match m with
    | None =>
        h <~ container_monitor ;;
        modify (set_monitor (Some h)) ;;;
        m' <~ gets monitor ;;
        handleMonitorPromise m'
    | Some _ => ret tt
    end
  else
    container_start containerStart ;;;
    setState running ;;;
    h <~ container_monitor ;;
    modify (set_monitor (Some h)) ;;;
    m <~ gets monitor ;;
    handleMonitorPromise m.

(** [destroy]: storage and alarm are erased and the unit is torn down;
    [ctx.abort()] in the [finally] then ends the actor (its fields are
    lost), so the call never returns normally. *)
Definition ctx_abort : M Sup unit :=
  fun s => (Throw "aborted",
            mkSup (stored s) (alarm_at s) None [] (c_running s) (issued s)
                  (launches s)).

Definition container_destroy : M Sup unit :=
  modify (fun s => mkSup (stored s) (alarm_at s) (monitor s) (handlers s) false
                         (issued s) (launches s)).

Definition destroy : M Sup unit :=
  try_finally
    (modify (set_stored None) ;;;
     modify (set_alarm_at None) ;;;
     container_destroy)
    ctx_abort.

End Supervisor.

(** [CommonContainer]'s own hooks. *)
Definition noHook : option ContainerState -> ContainerState -> M Sup unit :=
  fun _ _ => ret tt.

(** A hook of a subclass that raises an error. *)
Definition failingHook : option ContainerState -> ContainerState -> M Sup unit :=
  fun _ _ => throw "hook failed".

(** A supervisor whose storage has never been written. *)
Definition fresh : Sup := mkSup None None None [] false 0 [].

Definition opts0 : ContainerStartupOptions :=
  mkOpts None (Some ["/server"]) None.

(** The state that [state()] reports. *)
Definition reported (s : Sup) : ContainerState :=
  match stored s with Some st => st | None => unknown end.

(** One operation of a supervisor of class [CommonContainer] or of a
    subclass that only adds [healthCheck]. *)
Inductive Op : Type :=
| OpConstructor (now : Z)
| OpStart (opts : ContainerStartupOptions)
| OpAlarm (now : Z)
| OpMonitorSettled (outcome : MonitorOutcome)
| OpDestroy.

Definition run (hc : option HealthCheck) (op : Op) : M Sup unit :=
  match op with
  | OpConstructor now => constructor now
  | OpStart opts => start noHook noHook opts
  | OpAlarm now => alarm noHook noHook hc now
  | OpMonitorSettled outcome => monitorSettled noHook noHook outcome
  | OpDestroy => destroy
  end.

(** The supervisor states that a sequence of operations leads to from
    empty storage. *)
Inductive reachable (hc : option HealthCheck) : Sup -> Prop :=
| reach_fresh : reachable hc fresh
| reach_step op s : reachable hc s -> reachable hc (snd (run hc op s)).


(** A supervisor started once from empty storage. *)
Definition started : Sup := snd (start noHook noHook opts0 fresh).

(** The same supervisor with a wake-up pending at time 3. *)
Definition armed : Sup := set_alarm_at (Some 3%Z) started.

(** A monitor obtained from the runtime and given its callbacks, as
    [start] and the constructor do. *)
Definition fresh_monitor_attached (s s' : Sup) : Prop :=
  issued s' = S (issued s) /\ monitor s' = Some (issued s)
  /\ handlers s' = issued s :: handlers s.

End Container.

(** ** src/common/manager.ts: the fleet registry *)

Module Manager.

Import Container.

Record ContainerInfo : Type := mkInfo {
  startupOpts : ContainerStartupOptions;
  name : string;
  state : ContainerState;
  bindingName : string;
}.

(** A namespace of supervisors (one per size class), an object. *)
Record DurableObjectNamespace : Type := mkNamespace { class_name : string }.

(** [binding.get(binding.idFromName(name))] *)
Definition Stub : Type := (DurableObjectNamespace * string)%type.

Record Request : Type := mkRequest { url : string }.
Record Response : Type := mkResponse { status : Z; body : string }.

(** Calls that the registry sends to supervisors. *)
Inductive Rpc : Type :=
| RpcStart (c : Stub) (opts : ContainerStartupOptions)
| RpcState (c : Stub)
| RpcDestroy (c : Stub)
| RpcFetch (c : Stub) (req : Request).

(** The registry: its durable storage (the ["containers"] key and the
    alarm slot), the sequence of values it has put under ["containers"],
    and the calls it has sent. *)
Record Mgr : Type := mkMgr {
  containers : option (list ContainerInfo);   (* undefined until first put *)
  alarm_at : option Z;
  puts : list (list ContainerInfo);
  calls : list Rpc;
}.

Definition storage_put (l : list ContainerInfo) : M Mgr unit :=
  modify (fun m => mkMgr (Some l) (alarm_at m) (puts m ++ [l]) (calls m)).

Definition send (r : Rpc) : M Mgr unit :=
  modify (fun m => mkMgr (containers m) (alarm_at m) (puts m) (calls m ++ [r])).

Definition set_alarm_at (v : option Z) (m : Mgr) : Mgr :=
  mkMgr (containers m) v (puts m) (calls m).

(** The elements of a stored array as JavaScript values: the record at
    index [i] is the object [JRecord i]. *)
Fixpoint js_elements (i : nat) (l : list ContainerInfo) : list (Js.Val * ContainerInfo) :=
  match l with
  | [] => []
  | c :: rest => (Js.JRecord i, c) :: js_elements (S i) rest
  end.

(** [array.includes(v)] *)
Definition includes (l : list ContainerInfo) (v : Js.Val) : bool :=
  existsb (fun e => Js.strict_eq (fst e) v) (js_elements 0 l).

(** [array.filter((d) => d !== v)] *)
Definition filter_ne (l : list ContainerInfo) (v : Js.Val) : list ContainerInfo :=
  map snd (List.filter (fun e => negb (Js.strict_eq (fst e) v)) (js_elements 0 l)).

(** The keys that [for (const rm in array)] enumerates: the indices, as
    strings. *)
Definition for_in_keys {A} (l : list A) : list string :=
  map (fun i => NilEmpty.string_of_uint (Nat.to_uint i)) (seq 0 (length l)).

(** [rm.name] where [rm] is such a key: a string has no [name]
    property. *)
Definition key_name (rm : string) : Js.Val := Js.JUndefined.

Definition isTerminalState (st : ContainerState) : bool :=
  ContainerState_eqb st stopped || ContainerState_eqb st failed.

Definition set_state (st : ContainerState) (c : ContainerInfo) : ContainerInfo :=
  mkInfo (startupOpts c) (name c) st (bindingName c).

(** A registry whose storage has never been written. *)
Definition empty_registry : Mgr := mkMgr None None [] [].

(** The members that every plain object inherits from [Object.prototype]. *)
Definition object_prototype : list string :=
  ["constructor"; "__defineGetter__"; "__defineSetter__"; "hasOwnProperty";
   "__lookupGetter__"; "__lookupSetter__"; "isPrototypeOf"; "propertyIsEnumerable";
   "toString"; "valueOf"; "__proto__"; "toLocaleString"].

(** What [this.bindings[name]] can give: the namespace stored under an
    own key, or an inherited member (a function, or for [__proto__] the
    prototype itself), which is an object and so truthy. *)
Inductive Binding : Type :=
| Namespace (ns : DurableObjectNamespace)
| Inherited (member : string).

(** What the expression [this.handleTerminalState(c)] evaluates to
    depends on how the method is declared: one declared [async], as in
    the base class and in index.ts, gives a promise whatever its body
    does; one that is not gives the value its body returns, and an
    exception of its body is thrown at the call. *)
Inductive Policy : Type :=
| AsyncPolicy (body : Stub -> M Mgr bool)
| SyncPolicy (body : Stub -> M Mgr bool).

Definition call_policy (policy : Policy) (i : nat) (c : Stub) : M Mgr Js.Val :=
  match policy with
  | AsyncPolicy body => remove <~ call_async (body c) ;; ret (Js.JPromise i remove)
  | SyncPolicy body => remove <~ body c ;; ret (Js.JBool remove)
  end.

Section Registry.

(** The pools, [this.bindings]: a plain object whose own keys are the
    pool names. *)
Variable bindings : gmap string DurableObjectNamespace.
(** What a supervisor answers to [state()] and to [fetch(request)]. *)
Variable unit_state : Stub -> ContainerState.
Variable unit_fetch : Stub -> Request -> Result Response.
(** The retirement policy, [handleTerminalState], open to overriding. *)
Variable terminalPolicy : Policy.

(** [this.bindings[name]]: own keys first, then the prototype;
    [undefined] is [None]. *)
Definition get_property (nm : string) : option Binding :=
  match bindings !! nm with
  | Some ns => Some (Namespace ns)
  | None => if existsb (String.eqb nm) object_prototype then Some (Inherited nm)
            else None
  end.

Definition getBinding (nm : string) : M Mgr Binding :=
  let keys := map_to_list bindings in
  if String.eqb nm "" then
    match keys with
    | [] => throw "No container binding provided"
    | [(_, binding)] => ret (Namespace binding)
    | _ => throw "Multiple container bindings present: you must specify a name."
    end
  else
    match get_property nm with
    | None => throw ("No container binding found for name: '" ++ nm ++ "'")
    | Some binding => ret binding
    end.

(** [binding.idFromName(name)] and [binding.get(id)]: an inherited member
    has no [idFromName]. *)
Definition getContainerBinding (bindingNm nm : string) : M Mgr Stub :=
  binding <~ getBinding bindingNm ;;
  match binding with
  | Namespace ns => ret (ns, nm)
  | Inherited _ => throw "binding.idFromName is not a function"
  end.

Definition addContainer (nm : string) (opts : ContainerStartupOptions)
           (bindingNm : string) : M Mgr unit :=
  stored <~ gets containers ;;
  let cs := match stored with Some l => l | None => [] end in
  if negb (includes cs (Js.JString nm)) then
    storage_put (cs ++ [mkInfo opts nm starting bindingNm])
  else ret tt.

Definition newContainer (opts : ContainerStartupOptions) (nm bindingNm : string)
  : M Mgr unit :=
  container <~ getContainerBinding bindingNm nm ;;
  send (RpcStart container opts) ;;;
  addContainer nm opts bindingNm.

Definition requestContainer (nm : string) (request : Request) : M Mgr Response :=
  stored <~ gets containers ;;
  match stored with
  | None => throw "Cannot read properties of undefined (reading 'filter')"
  | Some cs =>
      let info := List.filter (fun c => String.eqb (name c) nm) cs in
      match info with
      | [i0] =>
          container <~ getContainerBinding (bindingName i0) nm ;;
          send (RpcFetch container request) ;;;
          (fun m => (unit_fetch container request, m))
      | _ => throw ("No record found for container: " ++ nm)
      end
  end.

Definition rmContainer (nm : Js.Val) : M Mgr bool :=
  stored <~ gets containers ;;
  match stored with
  | None => ret false
  | Some cs =>
      if Nat.eqb (length cs) 0 then ret false
      else
        let beforeLength := length cs in
        let cs' := filter_ne cs nm in
        if negb (Nat.eqb (length cs') beforeLength) then
          storage_put cs' ;;; ret true
        else ret false
  end.

Definition listContainers : M Mgr (list ContainerInfo) :=
  stored <~ gets containers ;;
  ret (match stored with Some l => l | None => [] end).

(** The first loop of [updateContainerStates]; [i] counts the
    iterations. *)
Fixpoint reconcile_loop_of (i : nat) (cs updated removals : list ContainerInfo)
  : M Mgr (list ContainerInfo * list ContainerInfo) :=
  match cs with
  | [] => ret (updated, removals)
  | container :: rest =>
      c <~ getContainerBinding (bindingName container) (name container) ;;
      send (RpcState c) ;;;
      let st := unit_state c in
      skip <~ (if isTerminalState st then
                 remove <~ call_policy terminalPolicy i c ;;
                 ret (Js.truthy remove)
               else ret false) ;;
      if (skip : bool) then reconcile_loop_of (S i) rest updated (removals ++ [container])
      else reconcile_loop_of (S i) rest (updated ++ [set_state st container]) removals
  end.

(** The state that a pass fetches for a record: that of the supervisor
    addressed by the record's pool and name. *)
Definition fetched (c : ContainerInfo) : Result ContainerState :=
  match fst (getContainerBinding (bindingName c) (name c) empty_registry) with
  | Ok stub => Ok (unit_state stub)
  | Throw e => Throw e
  end.

(** The records with a fetched state that is not terminal, each with
    that state, and the records with a terminal one. *)
Fixpoint refreshed (cs : list ContainerInfo) : list ContainerInfo :=
  match cs with
  | [] => []
  | c :: rest =>
      match fetched c with
      | Ok st => if isTerminalState st then refreshed rest
                 else set_state st c :: refreshed rest
      | Throw _ => refreshed rest
      end
  end.

Fixpoint terminal (cs : list ContainerInfo) : list ContainerInfo :=
  match cs with
  | [] => []
  | c :: rest =>
      match fetched c with
      | Ok st => if isTerminalState st then c :: terminal rest else terminal rest
      | Throw _ => terminal rest
      end
  end.

(** The records that a pass keeps when [handleTerminalState] is not
    declared [async] and answers [answer c]: those with a fetched state
    that is not terminal, and those with a terminal one for which the
    answer is [false]; each with the fetched state. *)
Fixpoint kept_under (answer : Stub -> bool) (cs : list ContainerInfo)
  : list ContainerInfo :=
  match cs with
  | [] => []
  | c :: rest =>
      match fst (getContainerBinding (bindingName c) (name c) empty_registry) with
      | Ok stub =>
          if isTerminalState (unit_state stub) && answer stub
          then kept_under answer rest
          else set_state (unit_state stub) c :: kept_under answer rest
      | Throw _ => kept_under answer rest
      end
  end.

(** The second loop: [for (const rm in removals) await this.rmContainer(rm.name)]. *)
Fixpoint removal_loop (keys : list string) : M Mgr unit :=
  match keys with
  | [] => ret tt
  | rm :: rest => rmContainer (key_name rm) ;;; removal_loop rest
  end.

(** The callback that [updateContainerStates] hands to
    [blockConcurrencyWhile]: one reconciliation pass. *)
Definition reconcile_of : M Mgr unit :=
  stored <~ gets containers ;;
  match stored with
  | None => throw "containers is not iterable"
  | Some cs =>
      r <~ reconcile_loop_of 0 cs [] [] ;;
      removal_loop (for_in_keys (snd r)) ;;;
      storage_put (fst r)
  end.

(** [updateContainerStates] does not await the pass. *)
Definition updateContainerStates_of : M Mgr unit :=
  p <~ call_async reconcile_of ;; ret tt.

Definition setAlarm (value : Z) : M Mgr unit :=
  alarm <~ gets alarm_at ;;
  match alarm with
  | None => modify (set_alarm_at (Some value))
  | Some _ => ret tt
  end.

(** [try { updateContainerStates() } finally { setAlarm() }], where
    [setAlarm()] takes its default argument [Date.now() + 1000]. *)
Definition alarm_of (now : Z) : M Mgr unit :=
  try_finally updateContainerStates_of (setAlarm (now + 1000)).

End Registry.

(** The pass and the wake-up of a registry whose [handleTerminalState]
    is declared [async], as the base class and index.ts declare it; the
    argument is the body of the method. *)
Definition reconcile_loop (bindings : gmap string DurableObjectNamespace)
           (unit_state : Stub -> ContainerState)
           (handleTerminalState : Stub -> M Mgr bool) :=
  reconcile_loop_of bindings unit_state (AsyncPolicy handleTerminalState).

Definition reconcile (bindings : gmap string DurableObjectNamespace)
           (unit_state : Stub -> ContainerState)
           (handleTerminalState : Stub -> M Mgr bool) : M Mgr unit :=
  reconcile_of bindings unit_state (AsyncPolicy handleTerminalState).

Definition updateContainerStates (bindings : gmap string DurableObjectNamespace)
           (unit_state : Stub -> ContainerState)
           (handleTerminalState : Stub -> M Mgr bool) : M Mgr unit :=
  updateContainerStates_of bindings unit_state (AsyncPolicy handleTerminalState).

Definition alarm (bindings : gmap string DurableObjectNamespace)
           (unit_state : Stub -> ContainerState)
           (handleTerminalState : Stub -> M Mgr bool) (now : Z) : M Mgr unit :=
  alarm_of bindings unit_state (AsyncPolicy handleTerminalState) now.

(** The default policy: destroy the unit and remove its record. *)
Definition defaultHandleTerminalState (container : Stub) : M Mgr bool :=
  send (RpcDestroy container) ;;; ret true.

(** The body of a policy that keeps terminal units, as a subclass may
    define it: [handleTerminalState(c) { return false; }], declared
    [async] or not. *)
Definition retainHandleTerminalState (container : Stub) : M Mgr bool :=
  ret false.

(** The directory that [listContainers] shows. *)
Definition directory (m : Mgr) : list ContainerInfo :=
  match containers m with Some l => l | None => [] end.

(** The records of a directory that carry a given name. *)
Definition named (nm : string) (l : list ContainerInfo) : list ContainerInfo :=
  List.filter (fun c => String.eqb (name c) nm) l.

(** A policy that leaves the registry's storage alone. *)
Definition keeps_storage (policy : Stub -> M Mgr bool) : Prop :=
  forall c m, containers (snd (policy c m)) = containers m
              /\ alarm_at (snd (policy c m)) = alarm_at m
              /\ puts (snd (policy c m)) = puts m.

(** The pools of [MyContainerManager] (src/index.ts). *)
Definition pools : gmap string DurableObjectNamespace :=
  <["small" := mkNamespace "CONTAINER_SMALL"]>
    (<["medium" := mkNamespace "CONTAINER_MEDIUM"]>
       (<["large" := mkNamespace "CONTAINER_LARGE"]> ∅)).

Definition job_a : ContainerInfo := mkInfo opts0 "job-a" starting "large".

(** A registry that tracks the one unit "job-a". *)
Definition registry_job_a : Mgr := mkMgr (Some [job_a]) None [[job_a]] [].

(** A registry with two records for "job-a", and one whose only record
    names a pool that is not configured. *)
Definition registry_twice : Mgr := mkMgr (Some [job_a; job_a]) None [] [].
Definition registry_lost : Mgr :=
  mkMgr (Some [mkInfo opts0 "job-b" starting "huge"]) None [] [].

(** A registry whose only record, as [addContainer] stores it, names the
    pool "constructor": no pool is configured under that name, and every
    object inherits a member of that name. *)
Definition registry_inherited : Mgr :=
  mkMgr (Some [mkInfo opts0 "job-c" starting "constructor"]) None [] [].

(** The registry of "job-a" with a wake-up pending at time 3. *)
Definition registry_armed : Mgr := set_alarm_at (Some 3%Z) registry_job_a.

(** Units that answer every request with their own name. *)
Definition echo_fetch : Stub -> Request -> Result Response :=
  fun c req => Ok (mkResponse 200 (snd c)).

Definition request_job_a : Request := mkRequest "https://example.com/container/job-a".

End Manager.

(** ** String methods of JavaScript used by the sources *)

Module JsString.

(** [hay.includes(needle)] *)
Fixpoint includes (hay needle : string) : bool :=
  if String.prefix needle hay then true
  else match hay with
       | EmptyString => false
       | String _ rest => includes rest needle
       end.

(** The string without its first [n] characters. *)
Fixpoint drop (n : nat) (s : string) : string :=
  match n, s with
  | O, _ => s
  | S n', EmptyString => EmptyString
  | S n', String _ rest => drop n' rest
  end.

(** [s.replace(pat, rep)] for a string pattern and a replacement without
    [$]: the first occurrence of [pat] is replaced. *)
Fixpoint replace (s pat rep : string) : string :=
  if String.prefix pat s then rep ++ drop (String.length pat) s
  else match s with
       | EmptyString => EmptyString
       | String c rest => String c (replace rest pat rep)
       end.

(** [s.split(sep)] for a separator of one character. *)
Fixpoint split (sep : Ascii.ascii) (s : string) : list string :=
  match s with
  | EmptyString => [EmptyString]
  | String c rest =>
      if Ascii.eqb c sep then EmptyString :: split sep rest
      else match split sep rest with
           | [] => [String c EmptyString]
           | h :: t => String c h :: t
           end
  end.

(** [parts.pop()] on the result of [split], which is never empty. *)
Definition pop (parts : list string) : string := List.last parts EmptyString.

(** No character of [s] is [c]. *)
Fixpoint free_of (c : Ascii.ascii) (s : string) : bool :=
  match s with
  | EmptyString => true
  | String d rest => negb (Ascii.eqb d c) && free_of c rest
  end.

End JsString.

(** ** src/common/container.ts: helpers and [fetch] *)

Module ContainerHelpers.

Import Container.

Definition isNotListeningError (message : string) : bool :=
  JsString.includes message "the container is not listening".

Definition noContainerYetError (message : string) : bool :=
  JsString.includes message "there is no container instance".

(** What [fetch] asks of the unit: [getTcpPort(port).fetch(url, request)]. *)
Record PortCall : Type := mkPortCall {
  pc_port : Z;
  pc_url : string;
  pc_request : Manager.Request;
}.

Definition fetch_call (request : Manager.Request) (port : option Z) : PortCall :=
  mkPortCall (match port with Some p => p | None => 8080%Z end)
             (JsString.replace (Manager.url request) "https://" "http://")
             request.

(** [fetch(request, port = 8080)]; [unit_answer] is what the unit's port
    answers. *)
Definition fetch (unit_answer : PortCall -> Result Manager.Response)
           (request : Manager.Request) (port : option Z) : M Sup Manager.Response :=
  fun s => (unit_answer (fetch_call request port), s).

End ContainerHelpers.

(** ** src/common/manager.ts: the constructor, and runs of the registry *)

Module ManagerRuns.

Import Container Manager.

(** The constructor calls [this.setAlarm(Date.now())] without [await]. *)
Definition constructor (now : Z) : M Mgr unit :=
  p <~ call_async (setAlarm now) ;; ret tt.

(** The calls that a pass sends for one record under a policy that sends
    [policy_calls]. *)
Definition pass_calls (bindings : gmap string DurableObjectNamespace)
           (unit_state : Stub -> ContainerState) (policy_calls : Stub -> list Rpc)
           (c : ContainerInfo) : list Rpc :=
  match fst (getContainerBinding bindings (bindingName c) (name c) empty_registry) with
  | Ok stub =>
      RpcState stub
      :: (if isTerminalState (unit_state stub) then policy_calls stub else [])
  | Throw _ => []
  end.

(** A record whose state is not terminal. *)
Definition nonterminal (c : ContainerInfo) : Prop := isTerminalState (state c) = false.

(** A policy whose only effect is to send the calls [policy_calls]. *)
Definition only_sends (policy : Stub -> M Mgr bool) (policy_calls : Stub -> list Rpc)
  : Prop :=
  forall c m, snd (policy c m)
              = mkMgr (containers m) (alarm_at m) (puts m) (calls m ++ policy_calls c).

(** One operation on the registry. *)
Inductive Op : Type :=
| OpConstructor (now : Z)
| OpNew (opts : ContainerStartupOptions) (nm pool : string)
| OpRequest (nm : string) (request : Request)
| OpRemove (nm : string)
| OpList
| OpAdd (nm : string) (opts : ContainerStartupOptions) (pool : string)
| OpUpdate
| OpAlarm (now : Z).

Section Runs.

Variable bindings : gmap string DurableObjectNamespace.
Variable policy : Policy.

(** The effect of an operation on the registry, with what the units
    answer while it runs. *)
Definition run (unit_state : Stub -> ContainerState)
           (unit_fetch : Stub -> Request -> Result Response) (op : Op) (m : Mgr) : Mgr :=
  match op with
  | OpConstructor now => snd (constructor now m)
  | OpNew opts nm pool => snd (newContainer bindings opts nm pool m)
  | OpRequest nm request => snd (requestContainer bindings unit_fetch nm request m)
  | OpRemove nm => snd (rmContainer (Js.JString nm) m)
  | OpList => snd (listContainers m)
  | OpAdd nm opts pool => snd (addContainer nm opts pool m)
  | OpUpdate => snd (updateContainerStates_of bindings unit_state policy m)
  | OpAlarm now => snd (alarm_of bindings unit_state policy now m)
  end.

(** The registries that operations lead to from empty storage. *)
Inductive reachable : Mgr -> Prop :=
| reach_empty : reachable empty_registry
| reach_run unit_state unit_fetch op m :
    reachable m -> reachable (run unit_state unit_fetch op m).

End Runs.

End ManagerRuns.

(** ** src/index.ts: the concrete classes and the front door *)

Module Index.

Import Container Manager.

(** Identifiers that code of index.ts can refer to: its imports and its
    own declarations, and the globals it names.  The helpers of
    container.ts are not exported and not imported. *)
Definition module_scope : list (string * string) :=
  [("z", "object"); ("CommonContainerManager", "function");
   ("CommonContainer", "function"); ("MyContainer", "function");
   ("MyContainerSmall", "function"); ("MyContainerMedium", "function");
   ("MyContainerLarge", "function"); ("MyContainerManager", "function");
   ("startSchema", "object");
   ("Request", "function"); ("Response", "function"); ("URL", "function");
   ("JSON", "object"); ("console", "object")].

(** Reading an identifier: one with no binding is a ReferenceError. *)
Definition resolve {S} (scope : list (string * string)) (x : string) : M S unit :=
  match Js.lookup_ident scope x with
  | Some _ => ret tt
  | None => throw (x ++ " is not defined")
  end.

(** The answer of the unit's port to the health request. *)
Record PortResponse : Type := mkPortResponse { ok : bool; port_status : Z }.

(** [MyContainer.healthCheck]; [answer] is what
    [port.fetch(new Request("http://container/_health"))] settles to. *)
Definition healthCheck (answer : Result PortResponse) : M Sup HealthResult :=
  let scope := ("portNumber", "number") :: ("port", "object") :: module_scope in
  resolve scope "wrap" ;;;
  r <~ wrap (fun s => (answer, s)) ;;
  match r with
  | Throw err =>
      resolve scope "isNotListeningError" ;;;
      if ContainerHelpers.isNotListeningError err then ret (HString "not_listening")
      else
        resolve scope "noContainerYetError" ;;;
        if ContainerHelpers.noContainerYetError err then ret (HString "no_container_yet")
        else throw err
  | Ok res =>
      if ok res then ret (HString "ok") else ret (HResponse (port_status res))
  end.

(** [MyContainerManager.handleTerminalState(container)]: the test reads
    [c instanceof MyContainer]. *)
Definition handleTerminalState (container : Stub) : M Mgr bool :=
  let scope := ("container", "object") :: module_scope in
  match Js.lookup_ident scope "c" with
  | None => throw "c is not defined"
  | Some tag =>
      if String.eqb tag "MyContainer" then ret true
      else defaultHandleTerminalState container
  end.

(** The body of a [/start] request after [JSON.parse] and
    [startSchema.parse]. *)
Record StartBody : Type := mkStartBody {
  sb_name : string;
  sb_envVars : option (list (string * string));
  sb_entrypoint : option (list string);
  sb_enableInternet : option bool;
  sb_size : string;
}.

(** What the front door answers: the response of a unit passed through,
    or a response it builds itself, always with the default status. *)
Inductive Payload : Type :=
| PText (text : string)
| PError (message : string) (status : Z) (statusText : string)
| PList (l : list ContainerInfo).

Inductive Reply : Type :=
| Forwarded (r : Response)
| Built (http_status : Z) (payload : Payload).

(** [new Response(body)] *)
Definition new_Response (payload : Payload) : Reply := Built 200 payload.

(** The [fetch] handler of the worker, acting on the one registry
    ("manager"); [pathname] is [new URL(request.url).pathname] and [parsed]
    is what reading and validating the body gives. *)
Definition fetch (unit_fetch : Stub -> Request -> Result Response)
           (pathname : string) (parsed : Result StartBody) (request : Request)
  : M Mgr Reply :=
  if String.prefix "/container/" pathname then
    let parts := JsString.split "/"%char pathname in
    let lastPart := JsString.pop parts in
    r <~ requestContainer pools unit_fetch lastPart request ;;
    ret (Forwarded r)
  else if String.prefix "/start" pathname then
    try_catch
      (startOpts <~ (fun m => (parsed, m)) ;;
       newContainer pools
                    (mkOpts (sb_envVars startOpts) (sb_entrypoint startOpts)
                            (sb_enableInternet startOpts))
                    (sb_name startOpts) (sb_size startOpts) ;;;
       ret (new_Response (PText "Container starting")))
      (fun error => ret (new_Response (PError "Error parsing request" 500 error)))
  else if String.prefix "/list" pathname then
    runningContainers <~ listContainers ;;
    ret (new_Response (PList runningContainers))
  else ret (new_Response (PText "Hello pool world")).

End Index.

(** * Properties *)

(** ** Facts about the combinators *)

Lemma try_catch_never_throws {S} (body : M S unit) (s : S) :
  fst (try_catch body (fun _ => ret tt) s) = Ok tt.
Proof.
  unfold try_catch. destruct (body s) as [[[]|e] s']; reflexivity.
Qed.

Lemma call_async_never_throws {S A} (m : M S A) (s : S) :
  exists p, fst (call_async m s) = Ok p.
Proof.
  unfold call_async. destruct (m s) as [[a|e] s']; eauto.
Qed.

Lemma truthy_promise (i : nat) (p : Promise bool) : Js.truthy (Js.JPromise i p) = true.
Proof. reflexivity. Qed.

(** ** The supervisor *)

Module ContainerFacts.

Import Container.

Lemma state_reports (s : Sup) : state s = (Ok (reported s), s).
Proof. reflexivity. Qed.

(** The identifier tested on line 113 is bound nowhere. *)
Lemma maybeHealthcheck_unbound (tag1 : string) :
  Js.typeof_ident (("maybeHealthCheck", tag1) :: ("state", "string") :: module_scope)
                  "maybeHealthcheck" = "undefined".
Proof. reflexivity. Qed.

(** With the hooks of [CommonContainer], a wake-up writes back the state
    it read, whether or not a health check is configured. *)
Lemma alarm_writes_back (hc : option HealthCheck) (now : Z) (s : Sup) :
  alarm noHook noHook hc now s =
    (Ok tt,
     set_alarm_at (match alarm_at s with Some a => Some a | None => Some (now + 500)%Z end)
                  (set_stored (Some (reported s)) s)).
Proof.
  unfold alarm, alarmBody, try_finally, try_catch, stateTx, bind.
  rewrite state_reports.
  rewrite maybeHealthcheck_unbound. cbn [String.eqb Ascii.eqb Bool.eqb].
  destruct s as [st al mon hs run iss ls]; destruct al; reflexivity.
Qed.

Lemma alarm_keeps_reported (hc : option HealthCheck) (now : Z) (s : Sup) :
  reported (snd (alarm noHook noHook hc now s)) = reported s.
Proof. rewrite alarm_writes_back. reflexivity. Qed.

(** The health-check branch on its own (lines 114-150) does follow the
    transition table of the design. *)
Lemma probe_table (hc : HealthCheck) (st : ContainerState) (s : Sup) :
  reported s = st ->
  reported (snd (probe noHook noHook (Some hc) st s)) =
    match hc s with
    | Throw _ => if ContainerState_eqb st starting then starting else failed
    | Ok (HResponse _) => unhealthy
    | Ok (HString r) =>
        if String.eqb r "ok" then running
        else if String.eqb r "not_listening" || String.eqb r "no_container_yet"
             then starting else st
    end.
Proof.
  intros Hst. unfold probe, bind, wrap.
  destruct (hc s) as [[r|code]|e].
  - destruct (String.eqb r "ok"); [reflexivity|].
    destruct (String.eqb r "not_listening" || String.eqb r "no_container_yet");
      [reflexivity|exact Hst].
  - reflexivity.
  - destruct st; cbn; try reflexivity. exact Hst.
Qed.


Lemma monitor_rejected_reported (e : string) (s : Sup) :
  reported (snd (monitorSettled noHook noHook (MonitorRejected (ErrorWith e)) s)) = failed.
Proof. reflexivity. Qed.

(** No sequence of operations from empty storage stores "starting" or
    "unhealthy". *)
Lemma reachable_reported (hc : option HealthCheck) (s : Sup) :
  reachable hc s -> reported s <> starting /\ reported s <> unhealthy.
Proof.
  induction 1 as [|op s Hs IH].
  - split; discriminate.
  - destruct op as [now|opts|now|outcome|]; cbn [run].
    + destruct s as [st al mon hs run iss ls].
      destruct run, mon, al; exact IH.
    + destruct s as [st al mon hs run iss ls].
      destruct run, mon; try exact IH; split; discriminate.
    + rewrite alarm_keeps_reported. exact IH.
    + destruct s as [st al mon hs run iss ls]. unfold reported in *. cbn [stored] in IH.
      destruct outcome as [|[e| | |]]; try (split; discriminate); try exact IH.
      destruct st as [[]|], mon; cbn; split; try discriminate; tauto.
    + destruct s as [st al mon hs run iss ls]. split; discriminate.
Qed.

(** The sibling paths do obtain a new monitor: [start] on a unit that is
    not running attaches a fresh one. *)
Lemma start_attaches_fresh_monitor (opts : ContainerStartupOptions) (s : Sup) :
  c_running s = false ->
  fresh_monitor_attached s (snd (start noHook noHook opts s)).
Proof.
  destruct s as [st al mon hs run iss ls]. cbn [c_running]. intros ->.
  repeat split.
Qed.


(** C1 (health-probe cycle, at the failing inputs).  A supervisor with a
    [healthCheck] configured, in state [running]: a probe that answers
    with a non-ok response, one that answers "not_listening" and one that
    answers "no_container_yet" all leave the state [running], where the
    transition table asks for [unhealthy], [starting] and [starting]; and
    from [starting] the answer "ok" leaves [starting], where the table
    asks for [running].  The wake-up tests [typeof maybeHealthcheck], an
    identifier that is not the constant [maybeHealthCheck], so the health
    check is never called. *)
Theorem C1_probe_outcome_is_ignored :
  reported started = running
  /\ reported (snd (alarm noHook noHook (Some (fun _ => Ok (HResponse 503))) 0 started))
     = running
  /\ reported (snd (alarm noHook noHook (Some (fun _ => Ok (HString "not_listening"))) 0
                         started)) = running
  /\ reported (snd (alarm noHook noHook (Some (fun _ => Ok (HString "no_container_yet"))) 0
                         started)) = running
  /\ reported (snd (alarm noHook noHook (Some (fun _ => Ok (HString "ok"))) 0
                         (set_stored (Some starting) started))) = starting.
Proof.
  repeat split; rewrite ?alarm_keeps_reported; reflexivity.
Qed.

(** C9 (probe error, at the failing input).  A supervisor in state
    [running] whose health check fails with an internal error stays
    [running] after the probe cycle, where the claim asks for [failed]:
    the health check is never called, for the reason that
    [maybeHealthcheck_unbound] states.  A unit in [starting] does stay
    [starting]. *)
Theorem C9_probe_error_is_ignored :
  reported (snd (alarm noHook noHook (Some (fun _ => Throw "internal error")) 0 started))
  = running
  /\ reported (snd (alarm noHook noHook (Some (fun _ => Throw "internal error")) 0
                         (set_stored (Some starting) started))) = starting.
Proof.
  split; rewrite alarm_keeps_reported; reflexivity.
Qed.

(** In the [starting] branch the callbacks are registered again on the
    promise in [this.monitor], here the one that has just resolved; no
    new monitor is asked of the runtime.  (No operation stores
    "starting", see [reachable_reported]: the state below is built by
    hand.) *)
Lemma starting_branch_reuses_monitor :
  let s := set_stored (Some starting) started in
  let s' := snd (monitorSettled noHook noHook MonitorResolved s) in
  monitor s = Some 0%nat /\ issued s = 1%nat
  /\ reported s' = starting
  /\ handlers s' = 0%nat :: handlers s
  /\ monitor s' = Some 0%nat
  /\ issued s' = 1%nat
  /\ ~ fresh_monitor_attached s s'.
Proof.
  cbv zeta. repeat split.
  intros (Hissued & _). vm_compute in Hissued. discriminate.
Qed.



(** C5 (counterexample).  On a supervisor without health check whose
    storage holds no state record, one wake-up writes "unknown" to
    storage; afterwards [state()] reports "unknown" although storage
    holds a record. *)
Lemma C5_alarm_persists_unknown :
  let s' := snd (run None (OpAlarm 0) fresh) in
  stored fresh = None
  /\ stored s' = Some unknown
  /\ fst (state s') = Ok unknown
  /\ reachable None s'.
Proof.
  cbv zeta. repeat split.
  apply (reach_step None (OpAlarm 0) fresh), reach_fresh.
Qed.

(** C5 (amended).  [state()] reports "unknown" exactly when storage holds
    no state record or holds the value "unknown"; and an operation leaves
    "unknown" in storage only if it was there before, or if the operation
    is a wake-up run on storage without a state record (it writes back
    the state it read).  [start], the monitor callbacks, the constructor
    and [destroy] never write "unknown". *)
Theorem C5_unknown_only_written_back (hc : option HealthCheck) (op : Op) (s : Sup) :
  (fst (state s) = Ok unknown <-> stored s = None \/ stored s = Some unknown)
  /\ (stored (snd (run hc op s)) = Some unknown ->
      stored s = Some unknown \/ (stored s = None /\ exists now, op = OpAlarm now)).
Proof.
  split.
  - rewrite state_reports. unfold reported. cbn [fst].
    destruct (stored s) as [[]|]; split; intros H;
      try (destruct H as [H|H]); try discriminate; auto.
  - destruct op as [now|opts|now|outcome|]; cbn [run].
    + destruct s as [st al mon hs run iss ls].
      destruct run, mon, al; cbn; auto.
    + destruct s as [st al mon hs run iss ls].
      destruct run, mon; cbn; intros H; try discriminate; auto.
    + rewrite alarm_writes_back. cbn. unfold reported.
      destruct (stored s) as [[]|]; intros H; try discriminate; eauto.
    + destruct s as [st al mon hs run iss ls].
      destruct outcome as [|[e| | |]], st as [[]|], mon; cbn; intros H;
        try discriminate; auto.
    + cbn. intros H. discriminate.
Qed.

Lemma C5_unknown_only_written_back_witness :
  stored (snd (run None (OpAlarm 0) fresh)) = Some unknown
  /\ (stored fresh = Some unknown \/ (stored fresh = None /\ exists now, OpAlarm 0 = OpAlarm now)).
Proof.
  split; [reflexivity|].
  apply (proj2 (C5_unknown_only_written_back None (OpAlarm 0) fresh)).
  reflexivity.
Defined.

End ContainerFacts.

(** ** The registry *)

Module ManagerFacts.

Import Container Manager.

(** A directory record is an object: it equals no string and is not
    [undefined]. *)
Lemma record_never_equals_primitive (v : Js.Val) (i : nat) (l : list ContainerInfo) :
  (forall j, Js.strict_eq (Js.JRecord j) v = false) ->
  existsb (fun e => Js.strict_eq (fst e) v) (js_elements i l) = false
  /\ map snd (List.filter (fun e => negb (Js.strict_eq (fst e) v)) (js_elements i l)) = l.
Proof.
  intros Hv. revert i. induction l as [|c l IH]; intros i; [auto|].
  cbn [js_elements existsb List.filter fst]. rewrite Hv.
  cbn [negb orb map snd]. destruct (IH (S i)) as [-> ->]. auto.
Qed.

Lemma includes_name_false (l : list ContainerInfo) (nm : string) :
  includes l (Js.JString nm) = false.
Proof. apply record_never_equals_primitive. reflexivity. Qed.

Lemma filter_ne_name (l : list ContainerInfo) (nm : string) :
  filter_ne l (Js.JString nm) = l.
Proof. apply record_never_equals_primitive. reflexivity. Qed.

Lemma filter_ne_undefined (l : list ContainerInfo) :
  filter_ne l Js.JUndefined = l.
Proof. apply record_never_equals_primitive. reflexivity. Qed.

(** [rmContainer] called with a name, or with [undefined], removes
    nothing, writes nothing and answers [false]. *)
Lemma rmContainer_removes_nothing (v : Js.Val) (m : Mgr) :
  (forall j, Js.strict_eq (Js.JRecord j) v = false) ->
  rmContainer v m = (Ok false, m).
Proof.
  intros Hv. unfold rmContainer, bind, gets.
  destruct (containers m) as [cs|]; [|reflexivity].
  destruct (Nat.eqb (length cs) 0); [reflexivity|].
  unfold filter_ne.
  rewrite (proj2 (record_never_equals_primitive v 0 cs Hv)).
  rewrite Nat.eqb_refl. reflexivity.
Qed.

(** [addContainer] appends a record whatever the directory holds. *)
Lemma addContainer_appends (nm : string) (opts : ContainerStartupOptions)
      (pool : string) (m : Mgr) :
  directory (snd (addContainer nm opts pool m))
  = (directory m ++ [mkInfo opts nm starting pool])%list.
Proof.
  unfold addContainer, bind, gets. rewrite includes_name_false. reflexivity.
Qed.

(** [getBinding] reads the pools only. *)
Lemma getBinding_pure (bindings : gmap string DurableObjectNamespace) (nm : string)
      (m m' : Mgr) :
  getBinding bindings nm m = (fst (getBinding bindings nm m'), m).
Proof.
  unfold getBinding.
  destruct (String.eqb nm "").
  - destruct (map_to_list bindings) as [|[k b] [|]]; reflexivity.
  - destruct (get_property bindings nm); reflexivity.
Qed.

(** So does [getContainerBinding]. *)
Lemma getContainerBinding_pure (bindings : gmap string DurableObjectNamespace)
      (pool nm : string) (m m' : Mgr) :
  getContainerBinding bindings pool nm m
  = (fst (getContainerBinding bindings pool nm m'), m).
Proof.
  unfold getContainerBinding, bind.
  rewrite (getBinding_pure bindings pool m empty_registry).
  rewrite (getBinding_pure bindings pool m' empty_registry).
  destruct (fst (getBinding bindings pool empty_registry)) as [[ns|member]|e];
    reflexivity.
Qed.

(** A pool name that is an own key of [this.bindings] resolves to the
    namespace stored under it. *)
Lemma getContainerBinding_own (bindings : gmap string DurableObjectNamespace)
      (pool nm : string) (ns : DurableObjectNamespace) (m : Mgr) :
  fst (getBinding bindings pool m) = Ok (Namespace ns) ->
  getContainerBinding bindings pool nm m = (Ok (ns, nm), m).
Proof.
  intros Hns. unfold getContainerBinding, bind.
  rewrite (getBinding_pure bindings pool m m), Hns. reflexivity.
Qed.

(** C3 (second [newContainer], at the failing input).  Creating "job-a"
    in pool "large" twice on a registry with empty storage leaves two
    directory records named "job-a": [addContainer] tests
    [containers.includes(name)] on an array of records, which no name is
    an element of. *)
Theorem C3_second_newContainer_adds_record :
  let go := newContainer pools opts0 "job-a" "large" in
  let m1 := snd (go empty_registry) in
  let m2 := snd (go m1) in
  fst (go empty_registry) = Ok tt /\ fst (go m1) = Ok tt
  /\ directory m1 = [job_a]
  /\ directory m2 = [job_a; job_a]
  /\ length (named "job-a" (directory m2)) = 2%nat.
Proof. vm_compute. repeat split. Qed.

(** C7 ([rmContainer], at the failing input).  On a registry that tracks
    "job-a", [rmContainer("job-a")] answers [false], leaves the record in
    the directory and writes nothing: the filter compares each record,
    not its name, with the name. *)
Theorem C7_rmContainer_keeps_named_record :
  let r := rmContainer (Js.JString "job-a") registry_job_a in
  named "job-a" (directory registry_job_a) = [job_a]
  /\ fst r = Ok false
  /\ directory (snd r) = [job_a]
  /\ puts (snd r) = puts registry_job_a.
Proof. vm_compute. repeat split. Qed.

(** C2 (reconciliation, at the failing input).  The registry tracks
    "job-a", its supervisor reports [stopped] and the retirement policy
    answers "keep" ([false]): the pass removes the record all the same.
    [handleTerminalState] is called without [await], and the promise it
    returns is truthy whatever it settles to. *)
Theorem C2_reconcile_removes_against_policy :
  let m' := snd (reconcile pools (fun _ => stopped) retainHandleTerminalState
                           registry_job_a) in
  fst (retainHandleTerminalState (mkNamespace "CONTAINER_LARGE", "job-a") registry_job_a)
  = Ok false
  /\ directory m' = []
  /\ puts m' = (puts registry_job_a ++ [[]])%list.
Proof. vm_compute. repeat split. Qed.

Section Reconciliation.

Variable bindings : gmap string DurableObjectNamespace.
Variable unit_state : Stub -> ContainerState.
Variable policy : Stub -> M Mgr bool.
Hypothesis policy_keeps_storage : keeps_storage policy.

Let loop := reconcile_loop bindings unit_state policy.

(** One iteration of the first loop.  The promise that the policy
    returns is tested as it is, so its answer does not select a branch. *)
Lemma reconcile_loop_step (c : ContainerInfo) (cs : list ContainerInfo) (i : nat)
      (updated removals : list ContainerInfo) (m : Mgr) :
  loop i (c :: cs) updated removals m =
    match fst (getContainerBinding bindings (bindingName c) (name c) empty_registry) with
    | Throw e => (Throw e, m)
    | Ok stub =>
        let m1 := snd (send (RpcState stub) m) in
        let st := unit_state stub in
        if isTerminalState st
        then loop (S i) cs updated (removals ++ [c])%list (snd (policy stub m1))
        else loop (S i) cs (updated ++ [set_state st c])%list removals m1
    end.
Proof.
  unfold loop, reconcile_loop. cbn [reconcile_loop_of].
  unfold bind at 1.
  rewrite (getContainerBinding_pure bindings (bindingName c) (name c) m empty_registry).
  destruct (fst (getContainerBinding bindings (bindingName c) (name c) empty_registry))
    as [stub|e]; [|reflexivity].
  unfold bind, send, modify. cbn [snd].
  destruct (isTerminalState (unit_state stub)); [|reflexivity].
  unfold call_policy, bind, call_async.
  destruct (policy stub _) as [[b|e] m2]; reflexivity.
Qed.

(** The first loop writes nothing to storage. *)
Lemma reconcile_loop_frame (cs : list ContainerInfo) :
  forall i updated removals m,
    containers (snd (loop i cs updated removals m)) = containers m
    /\ alarm_at (snd (loop i cs updated removals m)) = alarm_at m
    /\ puts (snd (loop i cs updated removals m)) = puts m.
Proof.
  induction cs as [|c cs IH]; intros i updated removals m; [cbn; auto|].
  rewrite reconcile_loop_step.
  destruct (fst (getContainerBinding bindings (bindingName c) (name c) empty_registry))
      as [stub|e];
    [|cbn; auto].
  cbv zeta.
  destruct (isTerminalState (unit_state stub)).
  - destruct (policy_keeps_storage stub
                (snd (send (RpcState stub) m))) as (Hc & Ha & Hp).
    destruct (IH (S i) updated (removals ++ [c])%list
                 (snd (policy stub (snd (send (RpcState stub) m)))))
      as (Hc' & Ha' & Hp').
    rewrite Hc', Ha', Hp', Hc, Ha, Hp. auto.
  - destruct (IH (S i) (updated ++ [set_state (unit_state stub) c])%list
                 removals (snd (send (RpcState stub) m)))
      as (Hc' & Ha' & Hp').
    rewrite Hc', Ha', Hp'. auto.
Qed.

(** When every record's pool resolves, the first loop splits the
    directory by the fetched state alone. *)
Lemma reconcile_loop_result (cs : list ContainerInfo) :
  forall i updated removals m,
    Forall (fun c => exists st, fetched bindings unit_state c = Ok st) cs ->
    fst (loop i cs updated removals m)
    = Ok ((updated ++ refreshed bindings unit_state cs)%list,
          (removals ++ terminal bindings unit_state cs)%list).
Proof.
  induction cs as [|c cs IH]; intros i updated removals m Hall.
  - cbn. rewrite !app_nil_r. reflexivity.
  - inversion Hall as [|c' cs' [st Hst] Hrest]; subst.
    rewrite reconcile_loop_step. cbn [refreshed terminal].
    rewrite Hst. unfold fetched in Hst.
    destruct (fst (getContainerBinding bindings (bindingName c) (name c) empty_registry))
      as [stub|e];
      [|discriminate].
    injection Hst as <-. cbv zeta.
    destruct (isTerminalState (unit_state stub));
      rewrite IH by assumption; rewrite <- !app_assoc; reflexivity.
Qed.

(** The second loop changes nothing: each key is a string, its [name]
    is [undefined], and [rmContainer(undefined)] removes nothing. *)
Lemma removal_loop_noop (keys : list string) (m : Mgr) :
  removal_loop keys m = (Ok tt, m).
Proof.
  induction keys as [|rm keys IH]; [reflexivity|].
  cbn [removal_loop]. unfold bind.
  rewrite rmContainer_removes_nothing by reflexivity. exact IH.
Qed.

(** One pass: when every record's pool resolves, the pass keeps exactly
    the records whose fetched state is not terminal, each with that
    state, and commits them in one put; the answer of the policy plays
    no part. *)
Lemma reconcile_result (cs : list ContainerInfo) (m : Mgr) :
  containers m = Some cs ->
  Forall (fun c => exists st, fetched bindings unit_state c = Ok st) cs ->
  exists m',
    reconcile bindings unit_state policy m = (Ok tt, m')
    /\ containers m' = Some (refreshed bindings unit_state cs)
    /\ puts m' = (puts m ++ [refreshed bindings unit_state cs])%list
    /\ alarm_at m' = alarm_at m.
Proof.
  intros Hcs Hall.
  pose proof (reconcile_loop_result cs 0 [] [] m Hall) as Hres.
  pose proof (reconcile_loop_frame cs 0 [] [] m) as (Hc & Ha & Hp).
  unfold loop, reconcile_loop in *.
  unfold reconcile, reconcile_of, bind, gets. rewrite Hcs.
  destruct (reconcile_loop_of bindings unit_state (AsyncPolicy policy) 0 cs [] [] m) as [r m1].
  cbn [fst snd] in *. subst r.
  rewrite removal_loop_noop. cbn [fst snd app].
  eexists. split; [reflexivity|]. cbn. rewrite Ha, Hp. auto.
Qed.

(** A pass never changes the alarm slot. *)
Lemma reconcile_keeps_alarm (m : Mgr) :
  alarm_at (snd (reconcile bindings unit_state policy m)) = alarm_at m.
Proof.
  unfold reconcile, reconcile_of, bind at 1, gets.
  destruct (containers m) as [cs|]; [|reflexivity].
  unfold bind at 1.
  pose proof (reconcile_loop_frame cs 0 [] [] m) as (Hc & Ha & Hp).
  unfold loop, reconcile_loop in *.
  destruct (reconcile_loop_of bindings unit_state (AsyncPolicy policy) 0 cs [] [] m) as [[r|e] m1];
    cbn [fst snd] in *; [|exact Ha].
  unfold bind. rewrite removal_loop_noop. cbn. exact Ha.
Qed.

End Reconciliation.

Section SyncReconciliation.

Variable bindings : gmap string DurableObjectNamespace.
Variable unit_state : Stub -> ContainerState.
Variable body : Stub -> M Mgr bool.
Variable answer : Stub -> bool.
Hypothesis body_keeps_storage : keeps_storage body.
Hypothesis body_answers : forall c m, fst (body c m) = Ok (answer c).

Let sync_loop := reconcile_loop_of bindings unit_state (SyncPolicy body).

(** One iteration of the first loop when [handleTerminalState] is not
    declared [async]: the value tested is the answer itself. *)
Lemma sync_loop_step (c : ContainerInfo) (cs : list ContainerInfo) (i : nat)
      (updated removals : list ContainerInfo) (m : Mgr) :
  sync_loop i (c :: cs) updated removals m =
    match fst (getContainerBinding bindings (bindingName c) (name c) empty_registry) with
    | Throw e => (Throw e, m)
    | Ok stub =>
        let m1 := snd (send (RpcState stub) m) in
        let st := unit_state stub in
        if isTerminalState st && answer stub
        then sync_loop (S i) cs updated (removals ++ [c])%list (snd (body stub m1))
        else sync_loop (S i) cs (updated ++ [set_state st c])%list removals
                       (if isTerminalState st then snd (body stub m1) else m1)
    end.
Proof.
  unfold sync_loop. cbn [reconcile_loop_of].
  unfold bind at 1.
  rewrite (getContainerBinding_pure bindings (bindingName c) (name c) m empty_registry).
  destruct (fst (getContainerBinding bindings (bindingName c) (name c) empty_registry))
    as [stub|e]; [|reflexivity].
  unfold bind, send, modify. cbn [snd].
  destruct (isTerminalState (unit_state stub)); [|reflexivity].
  unfold call_policy, bind.
  pose proof (body_answers stub
                (mkMgr (containers m) (alarm_at m) (puts m)
                       (calls m ++ [RpcState stub])%list)) as Hb.
  destruct (body stub _) as [[b|e] m2]; cbn [fst] in Hb; [|discriminate].
  injection Hb as ->. cbn [andb]. destruct (answer stub); reflexivity.
Qed.

Lemma sync_loop_frame (cs : list ContainerInfo) :
  forall i updated removals m,
    containers (snd (sync_loop i cs updated removals m)) = containers m
    /\ alarm_at (snd (sync_loop i cs updated removals m)) = alarm_at m
    /\ puts (snd (sync_loop i cs updated removals m)) = puts m.
Proof.
  induction cs as [|c cs IH]; intros i updated removals m; [cbn; auto|].
  rewrite sync_loop_step.
  destruct (fst (getContainerBinding bindings (bindingName c) (name c) empty_registry))
    as [stub|e]; [|cbn; auto].
  cbv zeta.
  destruct (body_keeps_storage stub (snd (send (RpcState stub) m))) as (Hc & Ha & Hp).
  destruct (isTerminalState (unit_state stub)); cbn [andb];
    [destruct (answer stub)|];
    match goal with
    | |- context [sync_loop ?j cs ?u ?r ?m0] =>
        destruct (IH j u r m0) as (Hc' & Ha' & Hp')
    end; rewrite Hc', Ha', Hp'; try rewrite Hc, Ha, Hp; auto.
Qed.

(** When every record's pool resolves, the records that the first loop
    hands to the final put are those of [kept_under]. *)
Lemma sync_loop_result (cs : list ContainerInfo) :
  forall i updated removals m,
    Forall (fun c => exists st, fetched bindings unit_state c = Ok st) cs ->
    exists r,
      fst (sync_loop i cs updated removals m)
      = Ok ((updated ++ kept_under bindings unit_state answer cs)%list, r).
Proof.
  induction cs as [|c cs IH]; intros i updated removals m Hall.
  - cbn. rewrite app_nil_r. eauto.
  - inversion Hall as [|c' cs' [st Hst] Hrest]; subst.
    rewrite sync_loop_step. cbn [kept_under].
    unfold fetched in Hst.
    destruct (fst (getContainerBinding bindings (bindingName c) (name c) empty_registry))
      as [stub|e]; [|discriminate].
    cbv zeta.
    destruct (isTerminalState (unit_state stub) && answer stub).
    + apply IH. assumption.
    + match goal with
      | |- context [sync_loop ?j cs ?u ?r ?m0] =>
          destruct (IH j u r m0 Hrest) as [r' Hr']
      end.
      exists r'. rewrite Hr', <- app_assoc. reflexivity.
Qed.

(** One pass under such a policy. *)
Lemma sync_reconcile_result (cs : list ContainerInfo) (m : Mgr) :
  containers m = Some cs ->
  Forall (fun c => exists st, fetched bindings unit_state c = Ok st) cs ->
  exists m',
    reconcile_of bindings unit_state (SyncPolicy body) m = (Ok tt, m')
    /\ containers m' = Some (kept_under bindings unit_state answer cs)
    /\ puts m' = (puts m ++ [kept_under bindings unit_state answer cs])%list
    /\ alarm_at m' = alarm_at m.
Proof.
  intros Hcs Hall.
  destruct (sync_loop_result cs 0 [] [] m Hall) as [r Hres].
  pose proof (sync_loop_frame cs 0 [] [] m) as (Hc & Ha & Hp).
  unfold sync_loop in *.
  unfold reconcile_of, bind, gets. rewrite Hcs.
  destruct (reconcile_loop_of bindings unit_state (SyncPolicy body) 0 cs [] [] m)
    as [res m1].
  cbn [fst snd] in *. subst res.
  rewrite removal_loop_noop. cbn [fst snd app].
  eexists. split; [reflexivity|]. cbn. rewrite Ha, Hp. auto.
Qed.

End SyncReconciliation.

Lemma default_policy_keeps_storage : keeps_storage defaultHandleTerminalState.
Proof. intros c m. repeat split. Qed.

(** [getBinding] by cases.  With the empty pool name: one configured
    pool is returned, several are an ambiguity error.  With a non-empty
    pool name: the pool configured under that name is returned; a name
    that is not configured is a "no container binding found" error when
    no member of [Object.prototype] has that name, and gives that member,
    with no error, when one has. *)
Lemma getBinding_resolves_pool
      (bindings : gmap string DurableObjectNamespace) (nm : string) (m : Mgr) :
  (nm = "" -> size bindings = 1%nat ->
   exists k pool, bindings = {[k := pool]}
                  /\ getBinding bindings nm m = (Ok (Namespace pool), m))
  /\ (nm = "" -> (1 < size bindings)%nat ->
      getBinding bindings nm m
      = (Throw "Multiple container bindings present: you must specify a name.", m))
  /\ (nm <> "" -> forall pool, bindings !! nm = Some pool ->
      getBinding bindings nm m = (Ok (Namespace pool), m))
  /\ (nm <> "" -> bindings !! nm = None -> ~ In nm object_prototype ->
      getBinding bindings nm m
      = (Throw ("No container binding found for name: '" ++ nm ++ "'"), m))
  /\ (nm <> "" -> bindings !! nm = None -> In nm object_prototype ->
      getBinding bindings nm m = (Ok (Inherited nm), m)).
Proof.
  assert (Hmember : forall b, existsb (String.eqb nm) object_prototype = b ->
                              if b then In nm object_prototype
                              else ~ In nm object_prototype).
  { intros [] Hb.
    - apply existsb_exists in Hb. destruct Hb as (x & Hin & Hx).
      apply String.eqb_eq in Hx. subst x. exact Hin.
    - intros Hin. assert (existsb (String.eqb nm) object_prototype = true) as Ht.
      { apply existsb_exists. exists nm. split; [exact Hin | apply String.eqb_refl]. }
      congruence. }
  repeat match goal with |- _ /\ _ => split end.
  - intros -> Hsize. unfold getBinding. cbn [String.eqb].
    rewrite <- length_map_to_list in Hsize.
    destruct (map_to_list bindings) as [|[k b] [|]] eqn:E; try discriminate.
    exists k, b. split; [|reflexivity].
    apply map_to_list_inj. rewrite E, map_to_list_singleton. reflexivity.
  - intros -> Hsize. unfold getBinding. cbn [String.eqb].
    rewrite <- length_map_to_list in Hsize.
    destruct (map_to_list bindings) as [|[k b] [|]]; cbn in Hsize; try lia.
    reflexivity.
  - intros Hnm pool Hpool. unfold getBinding, get_property.
    apply String.eqb_neq in Hnm. rewrite Hnm, Hpool. reflexivity.
  - intros Hnm Hpool Hout. unfold getBinding, get_property.
    apply String.eqb_neq in Hnm. rewrite Hnm, Hpool.
    specialize (Hmember _ eq_refl).
    destruct (existsb (String.eqb nm) object_prototype); [contradiction | reflexivity].
  - intros Hnm Hpool Hin. unfold getBinding, get_property.
    apply String.eqb_neq in Hnm. rewrite Hnm, Hpool.
    specialize (Hmember _ eq_refl).
    destruct (existsb (String.eqb nm) object_prototype); [reflexivity | contradiction].
Qed.

(** C8 ([getBinding], at the failing input).  No pool of
    [MyContainerManager] is configured under the name "constructor", and
    yet [getBinding("constructor")] raises no error: [this.bindings] is a
    plain object, [this.bindings["constructor"]] is the function it
    inherits from [Object.prototype], and a function is truthy.
    [newContainer] with that pool name is then rejected by the next
    line, where the value has no [idFromName].  A name such as "huge",
    which no prototype member carries, is the "no container binding
    found" error. *)
Theorem C8_getBinding_returns_inherited_member :
  pools !! "constructor" = None
  /\ getBinding pools "constructor" empty_registry
     = (Ok (Inherited "constructor"), empty_registry)
  /\ newContainer pools opts0 "job-a" "constructor" empty_registry
     = (Throw "binding.idFromName is not a function", empty_registry)
  /\ getBinding pools "huge" empty_registry
     = (Throw "No container binding found for name: 'huge'", empty_registry).
Proof. vm_compute. repeat split. Qed.

(** C6 ([requestContainer]).  When the directory holds no record or
    several records for the name, the call is rejected and nothing is
    sent.  When it holds exactly one, the pool of that record is resolved:
    if that gives a namespace, the request is sent to the [fetch] entry
    point of the supervisor with that pool and name and its answer is the
    result; if the pool does not resolve, or resolves to an inherited
    member, which has no [idFromName], the call is rejected and nothing
    is sent. *)
Theorem C6_requestContainer_routes
        (bindings : gmap string DurableObjectNamespace)
        (unit_fetch : Stub -> Request -> Result Response)
        (nm : string) (request : Request) (m : Mgr) :
  (length (named nm (directory m)) <> 1%nat ->
   exists e, requestContainer bindings unit_fetch nm request m = (Throw e, m))
  /\ (forall r pool,
        named nm (directory m) = [r] ->
        fst (getBinding bindings (bindingName r) m) = Ok (Namespace pool) ->
        requestContainer bindings unit_fetch nm request m
        = (unit_fetch (pool, nm) request, snd (send (RpcFetch (pool, nm) request) m)))
  /\ (forall r e,
        named nm (directory m) = [r] ->
        fst (getBinding bindings (bindingName r) m) = Throw e ->
        requestContainer bindings unit_fetch nm request m = (Throw e, m))
  /\ (forall r member,
        named nm (directory m) = [r] ->
        fst (getBinding bindings (bindingName r) m) = Ok (Inherited member) ->
        requestContainer bindings unit_fetch nm request m
        = (Throw "binding.idFromName is not a function", m)).
Proof.
  unfold directory, named, requestContainer, bind, gets.
  destruct (containers m) as [cs|].
  - destruct (List.filter (fun c => String.eqb (name c) nm) cs) as [|i0 [|i1 rest]].
    + repeat split; [eauto | discriminate..].
    + repeat split.
      * intros H. cbn in H. congruence.
      * intros r pool [= <-] Hpool. unfold getContainerBinding, bind.
        rewrite (getBinding_pure bindings (bindingName i0) m m), Hpool. reflexivity.
      * intros r e [= <-] He. unfold getContainerBinding, bind.
        rewrite (getBinding_pure bindings (bindingName i0) m m), He. reflexivity.
      * intros r member [= <-] Hb. unfold getContainerBinding, bind.
        rewrite (getBinding_pure bindings (bindingName i0) m m), Hb. reflexivity.
    + repeat split; [eauto | discriminate..].
  - repeat split; [eauto | discriminate..].
Qed.

Lemma C6_requestContainer_routes_witness :
  (exists e, requestContainer pools echo_fetch "job-a" request_job_a empty_registry
             = (Throw e, empty_registry))
  /\ (exists e, requestContainer pools echo_fetch "job-a" request_job_a registry_twice
                = (Throw e, registry_twice))
  /\ requestContainer pools echo_fetch "job-a" request_job_a registry_job_a
     = (Ok (mkResponse 200 "job-a"),
        snd (send (RpcFetch (mkNamespace "CONTAINER_LARGE", "job-a") request_job_a)
                  registry_job_a))
  /\ requestContainer pools echo_fetch "job-b" request_job_a registry_lost
     = (Throw "No container binding found for name: 'huge'", registry_lost)
  /\ requestContainer pools echo_fetch "job-c" request_job_a registry_inherited
     = (Throw "binding.idFromName is not a function", registry_inherited).
Proof.
  refine (conj _ (conj _ (conj _ (conj _ _)))).
  - apply (proj1 (C6_requestContainer_routes pools echo_fetch "job-a" request_job_a
                                             empty_registry)).
    vm_compute. lia.
  - apply (proj1 (C6_requestContainer_routes pools echo_fetch "job-a" request_job_a
                                             registry_twice)).
    vm_compute. lia.
  - exact (proj1 (proj2 (C6_requestContainer_routes pools echo_fetch "job-a"
                                                    request_job_a registry_job_a))
             job_a (mkNamespace "CONTAINER_LARGE") eq_refl eq_refl).
  - exact (proj1 (proj2 (proj2 (C6_requestContainer_routes pools echo_fetch "job-b"
                                                           request_job_a registry_lost)))
             (mkInfo opts0 "job-b" starting "huge")
             "No container binding found for name: 'huge'" eq_refl eq_refl).
  - exact (proj2 (proj2 (proj2 (C6_requestContainer_routes pools echo_fetch "job-c"
                                                           request_job_a
                                                           registry_inherited)))
             (mkInfo opts0 "job-c" starting "constructor") "constructor"
             eq_refl eq_refl).
Defined.

End ManagerFacts.

(** ** The wake-up discipline of both actors *)

Module WakeUp.

(** A [finally] step that arms a wake-up leaves one pending, whatever the
    body did. *)
Lemma finally_arms_supervisor {A} (body : M Container.Sup A) (v : Z)
      (s : Container.Sup) :
  is_Some (Container.alarm_at (snd (try_finally body (Container.setAlarm v) s))).
Proof.
  unfold try_finally. destruct (body s) as [r s'].
  unfold Container.setAlarm, bind, gets.
  destruct (Container.alarm_at s') as [a|] eqn:E; cbn; [rewrite E|]; eauto.
Qed.

Lemma finally_arms_registry {A} (body : M Manager.Mgr A) (v : Z) (m : Manager.Mgr) :
  is_Some (Manager.alarm_at (snd (try_finally body (Manager.setAlarm v) m))).
Proof.
  unfold try_finally. destruct (body m) as [r m'].
  unfold Manager.setAlarm, bind, gets.
  destruct (Manager.alarm_at m') as [a|] eqn:E; cbn; [rewrite E|]; eauto.
Qed.

(** [updateContainerStates] does not reject: the pass is not awaited. *)
Lemma updateContainerStates_never_rejects
      (bindings : gmap string Manager.DurableObjectNamespace)
      (unit_state : Manager.Stub -> Container.ContainerState)
      (policy : Manager.Stub -> M Manager.Mgr bool) (m : Manager.Mgr) :
  fst (Manager.updateContainerStates bindings unit_state policy m) = Ok tt.
Proof.
  unfold Manager.updateContainerStates, Manager.updateContainerStates_of, bind.
  fold (Manager.reconcile bindings unit_state policy).
  destruct (call_async_never_throws (Manager.reconcile bindings unit_state policy) m)
    as [p Hp].
  destruct (call_async (Manager.reconcile bindings unit_state policy) m) as [r m'].
  cbn [fst] in Hp. subst r. reflexivity.
Qed.

(** C10 (wake-up discipline).  Arming is idempotent for both actors: with
    a wake-up pending [setAlarm] changes nothing, with none pending it
    sets the given one.  After the wake-up handler of the supervisor a
    wake-up is pending, whatever the hooks and the health check do, an
    error included; after that of the registry likewise, whatever the
    policy and the pass do.  With the hooks of [CommonContainer], and
    with a policy that leaves storage alone, a handler that starts with
    no wake-up pending leaves the next one at 500 ms, respectively
    1000 ms, after the time of arming, and one pending at that point is
    kept. *)
Theorem C10_wakeup_rearmed
        (pre post : option Container.ContainerState -> Container.ContainerState
                    -> M Container.Sup unit)
        (hc : option Container.HealthCheck)
        (bindings : gmap string Manager.DurableObjectNamespace)
        (unit_state : Manager.Stub -> Container.ContainerState)
        (policy : Manager.Stub -> M Manager.Mgr bool)
        (now v : Z) (s : Container.Sup) (m : Manager.Mgr) :
  (forall a, Container.alarm_at s = Some a -> Container.setAlarm v s = (Ok tt, s))
  /\ (Container.alarm_at s = None ->
      Container.setAlarm v s = (Ok tt, Container.set_alarm_at (Some v) s))
  /\ (forall a, Manager.alarm_at m = Some a -> Manager.setAlarm v m = (Ok tt, m))
  /\ (Manager.alarm_at m = None ->
      Manager.setAlarm v m = (Ok tt, Manager.set_alarm_at (Some v) m))
  /\ is_Some (Container.alarm_at (snd (Container.alarm pre post hc now s)))
  /\ is_Some (Manager.alarm_at (snd (Manager.alarm bindings unit_state policy now m)))
  /\ (Container.alarm_at s = None ->
      Container.alarm_at (snd (Container.alarm Container.noHook Container.noHook hc now s))
      = Some (now + 500)%Z)
  /\ (Manager.keeps_storage policy -> Manager.alarm_at m = None ->
      Manager.alarm_at (snd (Manager.alarm bindings unit_state policy now m))
      = Some (now + 1000)%Z)
  /\ (forall a, Container.alarm_at s = Some a ->
      Container.alarm_at (snd (Container.alarm Container.noHook Container.noHook hc now s))
      = Some a)
  /\ (forall a, Manager.keeps_storage policy -> Manager.alarm_at m = Some a ->
      Manager.alarm_at (snd (Manager.alarm bindings unit_state policy now m)) = Some a).
Proof.
  assert (Hpass : Manager.keeps_storage policy ->
                  Manager.alarm_at
                    (snd (Manager.updateContainerStates bindings unit_state policy m))
                  = Manager.alarm_at m).
  { intros Hk.
    unfold Manager.updateContainerStates, Manager.updateContainerStates_of, bind,
      call_async.
    fold (Manager.reconcile bindings unit_state policy).
    pose proof (ManagerFacts.reconcile_keeps_alarm bindings unit_state policy Hk m) as H.
    destruct (Manager.reconcile bindings unit_state policy m) as [[[]|e] m'];
      exact H. }
  refine (conj _ (conj _ (conj _ (conj _ (conj _ (conj _ (conj _ (conj _ (conj _ _))))))))).
  - intros a Ha. unfold Container.setAlarm, bind, gets. rewrite Ha. reflexivity.
  - intros Ha. unfold Container.setAlarm, bind, gets. rewrite Ha. reflexivity.
  - intros a Ha. unfold Manager.setAlarm, bind, gets. rewrite Ha. reflexivity.
  - intros Ha. unfold Manager.setAlarm, bind, gets. rewrite Ha. reflexivity.
  - apply finally_arms_supervisor.
  - apply finally_arms_registry.
  - intros Ha. rewrite ContainerFacts.alarm_writes_back, Ha. reflexivity.
  - intros Hk Ha. specialize (Hpass Hk).
    unfold Manager.alarm, Manager.alarm_of, try_finally.
    fold (Manager.updateContainerStates bindings unit_state policy).
    destruct (Manager.updateContainerStates bindings unit_state policy m) as [r m'].
    cbn [snd] in Hpass. unfold Manager.setAlarm, bind, gets.
    rewrite Hpass, Ha. reflexivity.
  - intros a Ha. rewrite ContainerFacts.alarm_writes_back, Ha. reflexivity.
  - intros a Hk Ha. specialize (Hpass Hk).
    unfold Manager.alarm, Manager.alarm_of, try_finally.
    fold (Manager.updateContainerStates bindings unit_state policy).
    destruct (Manager.updateContainerStates bindings unit_state policy m) as [r m'].
    cbn [snd] in Hpass. unfold Manager.setAlarm, bind, gets.
    rewrite Hpass, Ha. cbn. rewrite Hpass, Ha. reflexivity.
Qed.

Lemma C10_wakeup_rearmed_witness :
  Container.setAlarm 7 Container.armed = (Ok tt, Container.armed)
  /\ Container.setAlarm 7 Container.started
     = (Ok tt, Container.set_alarm_at (Some 7%Z) Container.started)
  /\ Manager.setAlarm 7 Manager.registry_armed = (Ok tt, Manager.registry_armed)
  /\ Manager.setAlarm 7 Manager.registry_job_a
     = (Ok tt, Manager.set_alarm_at (Some 7%Z) Manager.registry_job_a)
  /\ (fst (Container.alarmBody Container.failingHook Container.noHook None
                               Container.started) = Throw "hook failed"
      /\ is_Some (Container.alarm_at
                    (snd (Container.alarm Container.failingHook Container.noHook None 0
                                          Container.started))))
  /\ (fst (Manager.reconcile Manager.pools (fun _ => Container.stopped)
                             Manager.defaultHandleTerminalState Manager.empty_registry)
      = Throw "containers is not iterable"
      /\ is_Some (Manager.alarm_at
                    (snd (Manager.alarm Manager.pools (fun _ => Container.stopped)
                                        Manager.defaultHandleTerminalState 0
                                        Manager.empty_registry))))
  /\ Container.alarm_at
       (snd (Container.alarm Container.noHook Container.noHook None 0 Container.started))
     = Some 500%Z
  /\ Manager.alarm_at
       (snd (Manager.alarm Manager.pools (fun _ => Container.stopped)
                           Manager.defaultHandleTerminalState 0 Manager.registry_job_a))
     = Some 1000%Z
  /\ Container.alarm_at
       (snd (Container.alarm Container.noHook Container.noHook None 0 Container.armed))
     = Some 3%Z
  /\ Manager.alarm_at
       (snd (Manager.alarm Manager.pools (fun _ => Container.stopped)
                           Manager.defaultHandleTerminalState 0 Manager.registry_armed))
     = Some 3%Z.
Proof.
  pose proof (C10_wakeup_rearmed Container.noHook Container.noHook None Manager.pools
                (fun _ => Container.stopped) Manager.defaultHandleTerminalState
                0 7 Container.armed Manager.registry_armed)
    as (S1 & _ & M1 & _ & _ & _ & _ & _ & S9 & M9).
  pose proof (C10_wakeup_rearmed Container.noHook Container.noHook None Manager.pools
                (fun _ => Container.stopped) Manager.defaultHandleTerminalState
                0 7 Container.started Manager.registry_job_a)
    as (_ & S2 & _ & M2 & _ & _ & S7 & M7 & _ & _).
  pose proof (C10_wakeup_rearmed Container.failingHook Container.noHook None Manager.pools
                (fun _ => Container.stopped) Manager.defaultHandleTerminalState
                0 7 Container.started Manager.empty_registry)
    as (_ & _ & _ & _ & S5 & M5 & _ & _ & _ & _).
  repeat match goal with |- _ /\ _ => split end.
  - exact (S1 3%Z eq_refl).
  - exact (S2 eq_refl).
  - exact (M1 3%Z eq_refl).
  - exact (M2 eq_refl).
  - reflexivity.
  - exact S5.
  - reflexivity.
  - exact M5.
  - exact (S7 eq_refl).
  - exact (M7 ManagerFacts.default_policy_keeps_storage eq_refl).
  - exact (S9 3%Z eq_refl).
  - exact (M9 3%Z ManagerFacts.default_policy_keeps_storage eq_refl).
Defined.

End WakeUp.

(** ** Further properties of the supervisor *)

Module SupervisorFacts.

Import Container.

(** X1.  The callbacks of a settled monitor, with the hooks of
    [CommonContainer].  A monitor rejected with an [Error], or with any
    value other than [undefined] and [null], leaves [failed], and the
    callback returns normally.  One rejected with [undefined] or [null]
    changes nothing: the [.catch] callback throws on [err.message]
    before it writes, and the promise of the chain is rejected.  A
    resolved monitor turns [running] and [unhealthy] into [stopped] and
    leaves every other state as it is, provided [this.monitor] is
    defined; in [starting] with [this.monitor] undefined, registering
    the callbacks throws and the [.catch] callback leaves [failed]; in
    either case the callbacks return normally. *)
Theorem monitor_settled_transitions (s : Sup) :
  (forall err, err <> Undefined -> err <> Null ->
     monitorSettled noHook noHook (MonitorRejected err) s
     = (Ok tt, set_stored (Some failed) s))
  /\ (forall err, err = Undefined \/ err = Null ->
        exists e, monitorSettled noHook noHook (MonitorRejected err) s = (Throw e, s))
  /\ (forall h, monitor s = Some h ->
        reported (snd (monitorSettled noHook noHook MonitorResolved s))
        = match reported s with
          | running | unhealthy => stopped
          | st => st
          end)
  /\ (monitor s = None -> reported s = starting ->
        reported (snd (monitorSettled noHook noHook MonitorResolved s)) = failed)
  /\ fst (monitorSettled noHook noHook MonitorResolved s) = Ok tt.
Proof.
  destruct s as [st al mon hs run iss ls].
  repeat match goal with |- _ /\ _ => split end.
  - intros [e| | |] Hu Hn; try congruence; reflexivity.
  - intros err [-> | ->]; eexists; reflexivity.
  - cbn [monitor]. intros h ->. destruct st as [[]|]; reflexivity.
  - cbn [monitor]. intros ->. unfold reported. cbn [stored].
    destruct st as [[]|]; intros H; try discriminate H. reflexivity.
  - destruct st as [[]|], mon; reflexivity.
Qed.

Lemma monitor_settled_transitions_witness :
  monitorSettled noHook noHook (MonitorRejected (ErrorWith "exit code 1")) started
  = (Ok tt, set_stored (Some failed) started)
  /\ (exists e, monitorSettled noHook noHook (MonitorRejected Undefined) started
                = (Throw e, started))
  /\ reported (snd (monitorSettled noHook noHook MonitorResolved started)) = stopped
  /\ reported (snd (monitorSettled noHook noHook MonitorResolved
                                   (set_monitor None (set_stored (Some starting) started))))
     = failed.
Proof.
  refine (conj _ (conj _ (conj _ _))).
  - apply (proj1 (monitor_settled_transitions started)); discriminate.
  - apply (proj1 (proj2 (monitor_settled_transitions started))). left. reflexivity.
  - exact (proj1 (proj2 (proj2 (monitor_settled_transitions started))) 0%nat eq_refl).
  - exact (proj1 (proj2 (proj2 (proj2 (monitor_settled_transitions
                                         (set_monitor None
                                            (set_stored (Some starting) started))))))
             eq_refl eq_refl).
Defined.

(** X2.  [start].  On a unit that is not running it launches the unit with
    the given options, stores [running] and attaches a new monitor.  On
    a running unit it never launches and never writes the state: with
    [this.monitor] undefined it attaches a new monitor, with a monitor in
    place it changes nothing at all. *)
Theorem start_cases (opts : ContainerStartupOptions) (s : Sup) :
  (c_running s = false ->
     let s' := snd (start noHook noHook opts s) in
     fst (start noHook noHook opts s) = Ok tt
     /\ stored s' = Some running /\ c_running s' = true
     /\ launches s' = (launches s ++ [opts])%list
     /\ alarm_at s' = alarm_at s
     /\ fresh_monitor_attached s s')
  /\ (c_running s = true -> monitor s = None ->
        let s' := snd (start noHook noHook opts s) in
        fst (start noHook noHook opts s) = Ok tt
        /\ stored s' = stored s /\ launches s' = launches s
        /\ alarm_at s' = alarm_at s
        /\ fresh_monitor_attached s s')
  /\ (forall h, c_running s = true -> monitor s = Some h ->
        start noHook noHook opts s = (Ok tt, s)).
Proof.
  destruct s as [st al mon hs run iss ls]. cbn [c_running monitor].
  repeat match goal with |- _ /\ _ => split end.
  - intros ->. cbv zeta. repeat split.
  - intros -> ->. cbv zeta. repeat split.
  - intros h -> ->. reflexivity.
Qed.

Lemma start_cases_witness :
  stored (snd (start noHook noHook opts0 fresh)) = Some running
  /\ launches (snd (start noHook noHook opts0 (set_monitor None started)))
     = launches started
  /\ start noHook noHook opts0 started = (Ok tt, started).
Proof.
  split; [|split].
  - exact (proj1 (proj2 (proj1 (start_cases opts0 fresh) eq_refl))).
  - exact (proj1 (proj2 (proj2 (proj1 (proj2 (start_cases opts0 (set_monitor None started)))
                                      eq_refl eq_refl)))).
  - exact (proj2 (proj2 (start_cases opts0 started)) 0%nat eq_refl eq_refl).
Defined.

(** X3.  The constructor never touches the stored state and leaves a wake-up
    pending.  When the unit is found running it attaches a new monitor,
    the only one with callbacks; when not, no monitor is attached. *)
Theorem constructor_recovers (now : Z) (s : Sup) :
  let s' := snd (constructor now s) in
  fst (constructor now s) = Ok tt
  /\ stored s' = stored s
  /\ is_Some (alarm_at s')
  /\ (alarm_at s = None -> alarm_at s' = Some now)
  /\ (c_running s = true ->
        monitor s' = Some (issued s) /\ handlers s' = [issued s]
        /\ issued s' = S (issued s))
  /\ (c_running s = false ->
        monitor s' = None /\ handlers s' = [] /\ issued s' = issued s).
Proof.
  destruct s as [st al mon hs run iss ls]. cbv zeta.
  destruct run, al; cbn; repeat split; eauto; discriminate.
Qed.

Lemma constructor_recovers_witness :
  alarm_at (snd (constructor 5 started)) = Some 5%Z
  /\ monitor (snd (constructor 5 started)) = Some 1%nat
  /\ monitor (snd (constructor 5 fresh)) = None.
Proof.
  split; [|split].
  - exact (proj1 (proj2 (proj2 (proj2 (constructor_recovers 5 started)))) eq_refl).
  - exact (proj1 (proj1 (proj2 (proj2 (proj2 (proj2 (constructor_recovers 5 started)))))
                    eq_refl)).
  - exact (proj1 (proj2 (proj2 (proj2 (proj2 (proj2 (constructor_recovers 5 fresh)))))
                    eq_refl)).
Defined.

(** X4.  [destroy] always ends with an exception; it leaves no stored state
    (so that [state()] reports "unknown"), no pending wake-up, the unit
    not running and no monitor.  A [start] after it launches the unit
    again and stores [running]. *)
Theorem destroy_then_start (opts : ContainerStartupOptions) (s : Sup) :
  let d := snd (destroy s) in
  fst (destroy s) = Throw "aborted"
  /\ stored d = None /\ reported d = unknown /\ alarm_at d = None
  /\ c_running d = false /\ monitor d = None /\ handlers d = []
  /\ reported (snd (start noHook noHook opts d)) = running
  /\ launches (snd (start noHook noHook opts d)) = (launches s ++ [opts])%list.
Proof.
  destruct s as [st al mon hs run iss ls]. cbv zeta. repeat split.
Qed.

(** X5.  In every state that operations lead to from empty storage, and for
    every health check, [state()] reports "unknown", "running", "stopped"
    or "failed": the supervisor never stores "starting" or "unhealthy". *)
Theorem reachable_never_starting_nor_unhealthy (hc : option HealthCheck) (s : Sup) :
  reachable hc s -> reported s <> starting /\ reported s <> unhealthy.
Proof. apply ContainerFacts.reachable_reported. Qed.

Lemma reachable_never_starting_nor_unhealthy_witness :
  reported started <> starting /\ reported started <> unhealthy.
Proof.
  apply (reachable_never_starting_nor_unhealthy None started).
  apply (reach_step None (OpStart opts0) fresh), reach_fresh.
Defined.

(** X6.  In every such state the monitor in [this.monitor] and every promise
    with callbacks are promises that the runtime has issued, and
    callbacks are registered only while [this.monitor] is defined: the
    callbacks never find it undefined. *)
Theorem reachable_monitors_issued (hc : option HealthCheck) (s : Sup) :
  reachable hc s ->
  (forall h, monitor s = Some h -> (h < issued s)%nat)
  /\ Forall (fun h => (h < issued s)%nat) (handlers s)
  /\ (handlers s <> [] -> monitor s <> None).
Proof.
  assert (Hmono : forall (n : nat) (l : list nat),
             Forall (fun h => (h < n)%nat) l -> Forall (fun h => (h < S n)%nat) l).
  { intros n l Hl. induction Hl; constructor; [lia | assumption]. }
  induction 1 as [|op s Hs (IHm & IHh & IHn)].
  - cbn. repeat split; [discriminate | constructor | intros H; congruence].
  - destruct op as [now|opts|now|outcome|]; cbn [run].
    + destruct s as [st al mon hs run iss ls]. cbn [monitor handlers issued] in *.
      destruct run, al; cbn; repeat split;
        try (intros h [= <-]; lia); try discriminate; try congruence;
        repeat constructor; lia.
    + destruct s as [st al mon hs run iss ls]. cbn [monitor handlers issued] in *.
      destruct run, mon as [h0|]; cbn; repeat split; auto;
        try (intros h [= <-]; lia); try discriminate;
        try (constructor; [lia | apply Hmono; assumption]).
    + rewrite ContainerFacts.alarm_writes_back. cbn. auto.
    + destruct s as [st al mon hs run iss ls]. cbn [monitor handlers issued] in *.
      destruct outcome as [|[e| | |]]; try (cbn; auto; fail).
      destruct st as [[]|], mon as [h0|]; cbn; repeat split; auto;
        try discriminate; constructor; auto.
    + destruct s as [st al mon hs run iss ls]. cbn.
      repeat split; [discriminate | constructor | congruence].
Qed.

Lemma reachable_monitors_issued_witness :
  (forall h, monitor started = Some h -> (h < issued started)%nat)
  /\ Forall (fun h => (h < issued started)%nat) (handlers started)
  /\ (handlers started <> [] -> monitor started <> None).
Proof.
  apply (reachable_monitors_issued None started).
  apply (reach_step None (OpStart opts0) fresh), reach_fresh.
Defined.

End SupervisorFacts.

(** ** String methods, error classifiers and [fetch] *)

Module HelperFacts.

Import Container.

Lemma app_nil (b : string) : "" ++ b = b.
Proof. reflexivity. Qed.

Lemma app_cons (c : ascii) (a b : string) : String c a ++ b = String c (a ++ b).
Proof. reflexivity. Qed.

Lemma prefix_app (p b : string) : String.prefix p (p ++ b) = true.
Proof.
  induction p as [|c p IH]; [destruct b; reflexivity|].
  rewrite app_cons. cbn [String.prefix].
  destruct (ascii_dec c c); [exact IH | congruence].
Qed.

Lemma prefix_inv (p : string) : forall s,
  String.prefix p s = true -> exists b, s = p ++ b.
Proof.
  induction p as [|c p IH]; intros s H.
  - exists s. reflexivity.
  - destruct s as [|d s]; cbn in H; [discriminate|].
    destruct (ascii_dec c d) as [->|]; [|discriminate].
    destruct (IH s H) as [b ->]. exists b. reflexivity.
Qed.

Lemma drop_app (p b : string) : JsString.drop (String.length p) (p ++ b) = b.
Proof.
  induction p as [|c p IH]; [destruct b; reflexivity|].
  rewrite app_cons. exact IH.
Qed.

Lemma includes_unfold (hay needle : string) :
  JsString.includes hay needle
  = if String.prefix needle hay then true
    else match hay with
         | EmptyString => false
         | String _ rest => JsString.includes rest needle
         end.
Proof. destruct hay; reflexivity. Qed.

(** [includes] is the substring test. *)
Lemma includes_iff (needle : string) : forall hay,
  JsString.includes hay needle = true <-> exists a b, hay = a ++ needle ++ b.
Proof.
  intros hay. split.
  - induction hay as [|c hay IH]; rewrite includes_unfold;
      destruct (String.prefix needle _) eqn:E.
    + intros _. destruct (prefix_inv _ _ E) as [b Hb]. exists "", b. exact Hb.
    + discriminate.
    + intros _. destruct (prefix_inv _ _ E) as [b Hb]. exists "", b. exact Hb.
    + intros H. destruct (IH H) as (a & b & ->). exists (String c a), b. reflexivity.
  - intros (a & b & ->). induction a as [|c a IH]; rewrite includes_unfold.
    + rewrite app_nil, prefix_app. reflexivity.
    + rewrite app_cons. destruct (String.prefix needle _); [reflexivity | exact IH].
Qed.

(** X7.  The two classifiers of probe errors hold exactly of the messages that
    contain their phrase, anywhere and in that spelling. *)
Theorem error_classifiers_are_substring_tests (message : string) :
  (ContainerHelpers.isNotListeningError message = true
   <-> exists a b, message = a ++ "the container is not listening" ++ b)
  /\ (ContainerHelpers.noContainerYetError message = true
      <-> exists a b, message = a ++ "there is no container instance" ++ b).
Proof. split; apply includes_iff. Qed.

Lemma replace_unfold (s pat rep : string) :
  JsString.replace s pat rep
  = if String.prefix pat s then rep ++ JsString.drop (String.length pat) s
    else match s with
         | EmptyString => EmptyString
         | String c rest => String c (JsString.replace rest pat rep)
         end.
Proof. destruct s; reflexivity. Qed.

Lemma replace_absent (pat rep : string) : forall s,
  JsString.includes s pat = false -> JsString.replace s pat rep = s.
Proof.
  induction s as [|c s IH]; rewrite includes_unfold, replace_unfold;
    destruct (String.prefix pat _); try discriminate; [reflexivity|].
  intros H. rewrite (IH H). reflexivity.
Qed.

(** X8.  [fetch] passes the request to the unit's port, 8080 unless a port is
    given, and returns what the port answers, an error included, without
    touching the supervisor.  A URL that begins with [https://] is sent
    with [http://] in its place and the rest untouched; a URL without
    [https://] is sent as it is. *)
Theorem fetch_forwards (unit_answer : ContainerHelpers.PortCall -> Result Manager.Response)
        (request : Manager.Request) (port : option Z) (s : Sup) :
  ContainerHelpers.fetch unit_answer request port s
  = (unit_answer (ContainerHelpers.fetch_call request port), s)
  /\ ContainerHelpers.pc_request (ContainerHelpers.fetch_call request port) = request
  /\ ContainerHelpers.pc_port (ContainerHelpers.fetch_call request None) = 8080%Z
  /\ (forall p, port = Some p ->
        ContainerHelpers.pc_port (ContainerHelpers.fetch_call request port) = p)
  /\ (forall rest, Manager.url request = "https://" ++ rest ->
        ContainerHelpers.pc_url (ContainerHelpers.fetch_call request port)
        = "http://" ++ rest)
  /\ (JsString.includes (Manager.url request) "https://" = false ->
        ContainerHelpers.pc_url (ContainerHelpers.fetch_call request port)
        = Manager.url request).
Proof.
  repeat match goal with |- _ /\ _ => split end; try reflexivity.
  - intros p ->. reflexivity.
  - intros rest Hurl. cbn [ContainerHelpers.fetch_call ContainerHelpers.pc_url].
    rewrite Hurl, replace_unfold, prefix_app.
    rewrite (drop_app "https://" rest). reflexivity.
  - intros Habs. cbn [ContainerHelpers.fetch_call ContainerHelpers.pc_url].
    apply replace_absent, Habs.
Qed.

Lemma fetch_forwards_witness :
  ContainerHelpers.pc_port
    (ContainerHelpers.fetch_call Manager.request_job_a (Some 9000%Z)) = 9000%Z
  /\ ContainerHelpers.pc_url (ContainerHelpers.fetch_call Manager.request_job_a None)
     = "http://example.com/container/job-a"
  /\ ContainerHelpers.pc_url
       (ContainerHelpers.fetch_call (Manager.mkRequest "http://container/_health") None)
     = "http://container/_health".
Proof.
  pose proof (fetch_forwards (fun _ => Throw "down") Manager.request_job_a (Some 9000%Z)
                             fresh) as (_ & _ & _ & Hport & _ & _).
  pose proof (fetch_forwards (fun _ => Throw "down") Manager.request_job_a None fresh)
    as (_ & _ & _ & _ & Hurl & _).
  pose proof (fetch_forwards (fun _ => Throw "down")
                             (Manager.mkRequest "http://container/_health") None fresh)
    as (_ & _ & _ & _ & _ & Habs).
  split; [|split].
  - exact (Hport 9000%Z eq_refl).
  - exact (Hurl "example.com/container/job-a" eq_refl).
  - exact (Habs eq_refl).
Defined.

(** [split] never returns an empty list. *)
Lemma split_cons (sep : ascii) (s : string) :
  exists h t, JsString.split sep s = h :: t.
Proof.
  induction s as [|c s (h & t & IH)]; cbn; [eauto|].
  destruct (Ascii.eqb c sep); [eauto|]. rewrite IH. eauto.
Qed.

Lemma split_free (sep : ascii) (s : string) :
  JsString.free_of sep s = true -> JsString.split sep s = [s].
Proof.
  induction s as [|c s IH]; cbn; [reflexivity|].
  destruct (Ascii.eqb c sep); cbn; [discriminate|].
  intros H. rewrite (IH H). reflexivity.
Qed.

Lemma split_app_sep (sep : ascii) (r : string) : forall p,
  exists h t, JsString.split sep (p ++ String sep r)
              = ((h :: t) ++ JsString.split sep r)%list.
Proof.
  induction p as [|c p (h & t & IH)];
    rewrite ?app_nil, ?app_cons; cbn [JsString.split].
  - rewrite Ascii.eqb_refl. exists "", []. reflexivity.
  - destruct (Ascii.eqb c sep).
    + exists "", (h :: t). rewrite IH. reflexivity.
    + rewrite IH. exists (String c h), t. reflexivity.
Qed.

Lemma last_app_cons {A} (l : list A) (x : A) (l' : list A) (d : A) :
  List.last (l ++ x :: l') d = List.last (x :: l') d.
Proof.
  induction l as [|y l IH]; [reflexivity|].
  cbn [app]. rewrite <- IH. destruct l; reflexivity.
Qed.

(** The last segment of a path: what [pathname.split("/").pop()] gives
    for a path that ends in [/] followed by a name without [/]. *)
Lemma last_segment (p nm : string) :
  JsString.free_of "/"%char nm = true ->
  JsString.pop (JsString.split "/"%char (p ++ String "/"%char nm)) = nm.
Proof.
  intros Hfree. destruct (split_app_sep "/"%char nm p) as (h & t & ->).
  rewrite (split_free _ _ Hfree). unfold JsString.pop.
  rewrite last_app_cons. reflexivity.
Qed.

End HelperFacts.

(** ** Further properties of the registry *)

Module RegistryFacts.

Import Container Manager.

(** The record that [addContainer] pushes. *)
Lemma addContainer_result (nm : string) (opts : ContainerStartupOptions)
      (pool : string) (m : Mgr) :
  addContainer nm opts pool m
  = (Ok tt,
     mkMgr (Some (directory m ++ [mkInfo opts nm starting pool])%list) (alarm_at m)
           (puts m ++ [(directory m ++ [mkInfo opts nm starting pool])%list])%list
           (calls m)).
Proof.
  unfold addContainer, bind, gets. rewrite ManagerFacts.includes_name_false.
  reflexivity.
Qed.

Lemma named_app (nm : string) (l l' : list ContainerInfo) :
  named nm (l ++ l') = (named nm l ++ named nm l')%list.
Proof.
  unfold named. induction l as [|c l IH]; [reflexivity|].
  cbn. destruct (String.eqb (name c) nm); cbn; rewrite IH; reflexivity.
Qed.

(** X9.  [addContainer] never fails and never skips: every call stores the
    directory with one more record, in state [starting], at its end, so
    that the number of records under the name grows by one; the records
    that were there are untouched. *)
Theorem addContainer_always_appends (nm : string) (opts : ContainerStartupOptions)
        (pool : string) (m : Mgr) :
  let m' := snd (addContainer nm opts pool m) in
  fst (addContainer nm opts pool m) = Ok tt
  /\ directory m' = (directory m ++ [mkInfo opts nm starting pool])%list
  /\ length (named nm (directory m')) = S (length (named nm (directory m)))
  /\ puts m' = (puts m ++ [directory m'])%list
  /\ calls m' = calls m /\ alarm_at m' = alarm_at m.
Proof.
  rewrite addContainer_result. cbv zeta. cbn [fst snd directory containers puts calls alarm_at].
  repeat match goal with |- _ /\ _ => split end; try reflexivity.
  rewrite named_app, length_app. unfold named at 2. cbn.
  rewrite String.eqb_refl. cbn. lia.
Qed.

Lemma rmContainer_never_removes_lemma (nm : string) (m : Mgr) :
  rmContainer (Js.JString nm) m = (Ok false, m).
Proof. apply ManagerFacts.rmContainer_removes_nothing. reflexivity. Qed.

(** X10.  [rmContainer] with a name never removes a record: whatever the
    directory holds and whatever the name, it answers [false], stores
    nothing and leaves every record under that name in the directory. *)
Theorem rmContainer_never_removes (nm : string) (m : Mgr) :
  let r := rmContainer (Js.JString nm) m in
  fst r = Ok false
  /\ named nm (directory (snd r)) = named nm (directory m)
  /\ directory (snd r) = directory m
  /\ puts (snd r) = puts m.
Proof.
  cbv zeta. rewrite rmContainer_never_removes_lemma. repeat split.
Qed.

(** [newContainer] on a pool that resolves. *)
Lemma newContainer_ok (bindings : gmap string DurableObjectNamespace)
      (opts : ContainerStartupOptions) (nm pool : string) (stub : Stub) (m : Mgr) :
  fst (getContainerBinding bindings pool nm m) = Ok stub ->
  newContainer bindings opts nm pool m
  = (Ok tt,
     mkMgr (Some (directory m ++ [mkInfo opts nm starting pool])%list) (alarm_at m)
           (puts m ++ [(directory m ++ [mkInfo opts nm starting pool])%list])%list
           (calls m ++ [RpcStart stub opts])%list).
Proof.
  intros Hstub. unfold newContainer, bind at 1.
  rewrite (ManagerFacts.getContainerBinding_pure bindings pool nm m m), Hstub.
  unfold bind, send, modify. rewrite addContainer_result. reflexivity.
Qed.

(** [newContainer] on a pool that does not resolve. *)
Lemma newContainer_rejected (bindings : gmap string DurableObjectNamespace)
      (opts : ContainerStartupOptions) (nm pool : string) (e : string) (m : Mgr) :
  fst (getContainerBinding bindings pool nm m) = Throw e ->
  newContainer bindings opts nm pool m = (Throw e, m).
Proof.
  intros He. unfold newContainer, bind at 1.
  rewrite (ManagerFacts.getContainerBinding_pure bindings pool nm m m), He.
  reflexivity.
Qed.

(** X11.  [newContainer].  The supervisor is addressed first
    ([getContainerBinding]): a pool name that [getBinding] resolves to a
    configured namespace gives the supervisor of that namespace and
    name; an error of [getBinding] is passed on; a pool name that
    resolves to an inherited member of [this.bindings], such as
    "constructor", is a type error, for the member has no [idFromName].
    When this step fails the call is rejected with its error, nothing is
    sent and nothing is stored.  When it succeeds, one [start] is sent
    to that supervisor, with the options as given, and the directory is
    stored with one more record for the name, in state [starting]. *)
Theorem newContainer_cases (bindings : gmap string DurableObjectNamespace)
        (opts : ContainerStartupOptions) (nm pool : string) (m : Mgr) :
  (forall ns, fst (getBinding bindings pool m) = Ok (Namespace ns) ->
     fst (getContainerBinding bindings pool nm m) = Ok (ns, nm))
  /\ (forall e, fst (getBinding bindings pool m) = Throw e ->
        fst (getContainerBinding bindings pool nm m) = Throw e)
  /\ (forall member, fst (getBinding bindings pool m) = Ok (Inherited member) ->
        fst (getContainerBinding bindings pool nm m)
        = Throw "binding.idFromName is not a function")
  /\ (forall e, fst (getContainerBinding bindings pool nm m) = Throw e ->
        newContainer bindings opts nm pool m = (Throw e, m))
  /\ (forall stub, fst (getContainerBinding bindings pool nm m) = Ok stub ->
        let m' := snd (newContainer bindings opts nm pool m) in
        fst (newContainer bindings opts nm pool m) = Ok tt
        /\ calls m' = (calls m ++ [RpcStart stub opts])%list
        /\ directory m' = (directory m ++ [mkInfo opts nm starting pool])%list
        /\ puts m' = (puts m ++ [directory m'])%list
        /\ alarm_at m' = alarm_at m).
Proof.
  assert (Hstep : forall b, fst (getBinding bindings pool m) = b ->
            fst (getContainerBinding bindings pool nm m)
            = match b with
              | Ok (Namespace ns) => Ok (ns, nm)
              | Ok (Inherited _) => Throw "binding.idFromName is not a function"
              | Throw e => Throw e
              end).
  { intros b Hb. unfold getContainerBinding, bind.
    rewrite (ManagerFacts.getBinding_pure bindings pool m m), Hb.
    destruct b as [[ns|member]|e]; reflexivity. }
  repeat match goal with |- _ /\ _ => split end.
  - intros ns Hns. exact (Hstep _ Hns).
  - intros e He. exact (Hstep _ He).
  - intros member Hb. exact (Hstep _ Hb).
  - intros e He. exact (newContainer_rejected bindings opts nm pool e m He).
  - intros stub Hstub. rewrite (newContainer_ok bindings opts nm pool stub m Hstub).
    cbv zeta. repeat split.
Qed.

Lemma newContainer_cases_witness :
  newContainer pools opts0 "job-a" "huge" registry_job_a
  = (Throw "No container binding found for name: 'huge'", registry_job_a)
  /\ newContainer pools opts0 "job-a" "constructor" registry_job_a
     = (Throw "binding.idFromName is not a function", registry_job_a)
  /\ calls (snd (newContainer pools opts0 "job-b" "small" registry_job_a))
     = [RpcStart (mkNamespace "CONTAINER_SMALL", "job-b") opts0].
Proof.
  refine (conj _ (conj _ _)).
  - apply (proj1 (proj2 (proj2 (proj2 (newContainer_cases pools opts0 "job-a" "huge"
                                                          registry_job_a))))).
    apply (proj1 (proj2 (newContainer_cases pools opts0 "job-a" "huge" registry_job_a))).
    reflexivity.
  - apply (proj1 (proj2 (proj2 (proj2 (newContainer_cases pools opts0 "job-a"
                                                          "constructor"
                                                          registry_job_a))))).
    apply (proj1 (proj2 (proj2 (newContainer_cases pools opts0 "job-a" "constructor"
                                                   registry_job_a)))
             "constructor").
    reflexivity.
  - apply (proj2 (proj2 (proj2 (proj2 (newContainer_cases pools opts0 "job-b" "small"
                                                          registry_job_a))))
             (mkNamespace "CONTAINER_SMALL", "job-b")).
    apply (proj1 (newContainer_cases pools opts0 "job-b" "small" registry_job_a)).
    reflexivity.
Defined.

(** X12.  Creating a unit and then asking for it.  After a successful
    [newContainer] for a name that the directory did not hold, a request
    for that name is sent to the [fetch] of the supervisor of the pool
    just given, and its answer is returned.  After one for a name that
    the directory already held, every request for that name is rejected:
    the directory now holds the name more than once. *)
Theorem newContainer_then_requestContainer
        (bindings : gmap string DurableObjectNamespace)
        (unit_fetch : Stub -> Request -> Result Response)
        (opts : ContainerStartupOptions) (nm pool : string) (ns : DurableObjectNamespace)
        (request : Request) (m : Mgr) :
  fst (getBinding bindings pool m) = Ok (Namespace ns) ->
  let m1 := snd (newContainer bindings opts nm pool m) in
  (named nm (directory m) = [] ->
     requestContainer bindings unit_fetch nm request m1
     = (unit_fetch (ns, nm) request, snd (send (RpcFetch (ns, nm) request) m1)))
  /\ (named nm (directory m) <> [] ->
        requestContainer bindings unit_fetch nm request m1
        = (Throw ("No record found for container: " ++ nm), m1)).
Proof.
  intros Hns.
  rewrite (newContainer_ok bindings opts nm pool (ns, nm) m
             (f_equal fst (ManagerFacts.getContainerBinding_own bindings pool nm ns m
                             Hns))).
  cbv zeta.
  cbn [snd]. set (m1 := mkMgr _ _ _ _).
  assert (Hnamed : List.filter (fun c => String.eqb (name c) nm)
                     (directory m ++ [mkInfo opts nm starting pool])
                   = (named nm (directory m) ++ [mkInfo opts nm starting pool])%list).
  { change (named nm (directory m ++ [mkInfo opts nm starting pool])
            = (named nm (directory m) ++ [mkInfo opts nm starting pool])%list).
    rewrite named_app. unfold named at 2. cbn. rewrite String.eqb_refl. reflexivity. }
  split; intros Hdir.
  - unfold requestContainer, bind, gets. cbn [containers m1].
    rewrite Hnamed, Hdir. cbn [app bindingName].
    unfold getContainerBinding, bind.
    rewrite (ManagerFacts.getBinding_pure bindings pool m1 m), Hns. reflexivity.
  - unfold requestContainer, bind, gets. cbn [containers m1].
    rewrite Hnamed.
    destruct (named nm (directory m)) as [|c0 [|c1 rest]]; [congruence | |]; reflexivity.
Qed.

Lemma newContainer_then_requestContainer_witness :
  requestContainer pools echo_fetch "job-b" request_job_a
                   (snd (newContainer pools opts0 "job-b" "small" registry_job_a))
  = (Ok (mkResponse 200 "job-b"),
     snd (send (RpcFetch (mkNamespace "CONTAINER_SMALL", "job-b") request_job_a)
               (snd (newContainer pools opts0 "job-b" "small" registry_job_a))))
  /\ requestContainer pools echo_fetch "job-a" request_job_a
                      (snd (newContainer pools opts0 "job-a" "small" registry_job_a))
     = (Throw "No record found for container: job-a",
        snd (newContainer pools opts0 "job-a" "small" registry_job_a)).
Proof.
  split.
  - exact (proj1 (newContainer_then_requestContainer pools echo_fetch opts0 "job-b" "small"
                    (mkNamespace "CONTAINER_SMALL") request_job_a registry_job_a eq_refl)
             eq_refl).
  - apply (proj2 (newContainer_then_requestContainer pools echo_fetch opts0 "job-a" "small"
                    (mkNamespace "CONTAINER_SMALL") request_job_a registry_job_a eq_refl)).
    vm_compute. discriminate.
Defined.

Lemma refreshed_spec (bindings : gmap string DurableObjectNamespace)
      (unit_state : Stub -> ContainerState) (cs : list ContainerInfo) (c' : ContainerInfo) :
  In c' (refreshed bindings unit_state cs)
  <-> exists c st, In c cs /\ fetched bindings unit_state c = Ok st
                   /\ isTerminalState st = false /\ c' = set_state st c.
Proof.
  induction cs as [|c cs IH]; cbn [refreshed In].
  - split; [tauto | intros (c & st & [] & _)].
  - destruct (fetched bindings unit_state c) as [st|e] eqn:Hc;
      [destruct (isTerminalState st) eqn:Hst|].
    + rewrite IH. split.
      * intros (c0 & st0 & Hin & H). exists c0, st0. tauto.
      * intros (c0 & st0 & [<-|Hin] & Hf & Ht & Heq).
        -- congruence.
        -- exists c0, st0. tauto.
    + cbn [In]. rewrite IH. split.
      * intros [<-|(c0 & st0 & Hin & H)].
        -- exists c, st. tauto.
        -- exists c0, st0. tauto.
      * intros (c0 & st0 & [<-|Hin] & Hf & Ht & Heq).
        -- left. congruence.
        -- right. exists c0, st0. tauto.
    + rewrite IH. split.
      * intros (c0 & st0 & Hin & H). exists c0, st0. tauto.
      * intros (c0 & st0 & [<-|Hin] & Hf & Ht & Heq).
        -- congruence.
        -- exists c0, st0. tauto.
Qed.

(** X13.  One reconciliation pass, when the pool of every record resolves and
    the policy leaves storage alone.  The pass succeeds, stores the
    directory once and leaves the alarm untouched.  Which records it
    keeps depends on how [handleTerminalState] is declared.  Declared
    [async], as in the base class and in index.ts: a record is in the
    new directory exactly when it is a record of the old one whose
    supervisor reported a state that is not terminal, carrying that
    state; the answer of the policy plays no part, and no record with a
    terminal state is kept.  Not declared [async], with the answers
    [answer]: the records kept are those of [kept_under], that is, also
    the records with a terminal state for which the answer is [false]. *)
Theorem pass_keeps_by_policy_declaration
        (bindings : gmap string DurableObjectNamespace)
        (unit_state : Stub -> ContainerState) (body : Stub -> M Mgr bool)
        (cs : list ContainerInfo) (m : Mgr) :
  keeps_storage body ->
  containers m = Some cs ->
  Forall (fun c => exists st, fetched bindings unit_state c = Ok st) cs ->
  (exists m',
     reconcile_of bindings unit_state (AsyncPolicy body) m = (Ok tt, m')
     /\ puts m' = (puts m ++ [directory m'])%list
     /\ alarm_at m' = alarm_at m
     /\ directory m' = refreshed bindings unit_state cs
     /\ (forall c', In c' (directory m')
                    <-> exists c st, In c cs /\ fetched bindings unit_state c = Ok st
                                     /\ isTerminalState st = false
                                     /\ c' = set_state st c)
     /\ Forall ManagerRuns.nonterminal (directory m')
     /\ (length (directory m') <= length cs)%nat)
  /\ (forall answer,
        (forall c m0, fst (body c m0) = Ok (answer c)) ->
        exists m',
          reconcile_of bindings unit_state (SyncPolicy body) m = (Ok tt, m')
          /\ puts m' = (puts m ++ [directory m'])%list
          /\ alarm_at m' = alarm_at m
          /\ directory m' = kept_under bindings unit_state answer cs).
Proof.
  intros Hk Hcs Hall. split.
  - destruct (ManagerFacts.reconcile_result bindings unit_state body Hk cs m Hcs Hall)
      as (m' & Hrun & Hdir & Hputs & Halarm).
    exists m'. unfold directory. rewrite Hdir.
    repeat match goal with |- _ /\ _ => split end; try assumption.
    + reflexivity.
    + intros c'. apply refreshed_spec.
    + apply List.Forall_forall. intros c' Hin.
      apply refreshed_spec in Hin. destruct Hin as (c & st & _ & _ & Hst & ->).
      exact Hst.
    + clear. induction cs as [|c cs IH]; cbn [refreshed]; [lia|].
      destruct (fetched bindings unit_state c) as [st|e];
        [destruct (isTerminalState st)|]; cbn [length]; lia.
  - intros answer Hanswer.
    destruct (ManagerFacts.sync_reconcile_result bindings unit_state body answer Hk
                Hanswer cs m Hcs Hall)
      as (m' & Hrun & Hdir & Hputs & Halarm).
    exists m'. unfold directory. rewrite Hdir.
    repeat match goal with |- _ /\ _ => split end; try assumption. reflexivity.
Qed.

Lemma pass_keeps_by_policy_declaration_witness :
  (exists m',
     reconcile_of pools (fun _ => stopped) (AsyncPolicy retainHandleTerminalState)
                  registry_job_a = (Ok tt, m')
     /\ directory m' = [])
  /\ (exists m',
        reconcile_of pools (fun _ => stopped) (SyncPolicy retainHandleTerminalState)
                     registry_job_a = (Ok tt, m')
        /\ directory m' = [set_state stopped job_a]).
Proof.
  assert (Hall : Forall (fun c => exists st, fetched pools (fun _ => stopped) c = Ok st)
                        [job_a]).
  { constructor; [|constructor]. exists stopped. reflexivity. }
  destruct (pass_keeps_by_policy_declaration pools (fun _ => stopped)
              retainHandleTerminalState [job_a] registry_job_a
              (fun c m => conj eq_refl (conj eq_refl eq_refl)) eq_refl Hall)
    as [Hasync Hsync].
  split.
  - destruct Hasync as (m' & Hrun & _ & _ & Hdir & _).
    exists m'. split; [exact Hrun | exact Hdir].
  - destruct (Hsync (fun _ => false) (fun c m0 => eq_refl))
      as (m' & Hrun & _ & _ & Hdir).
    exists m'. split; [exact Hrun | exact Hdir].
Defined.

Lemma loop_throws_on_unresolved_pool
      (bindings : gmap string DurableObjectNamespace)
      (unit_state : Stub -> ContainerState) (policy : Stub -> M Mgr bool)
      (cs : list ContainerInfo) :
  Exists (fun c => exists e, fetched bindings unit_state c = Throw e) cs ->
  forall i updated removals m,
    exists e, fst (reconcile_loop bindings unit_state policy i cs updated removals m)
              = Throw e.
Proof.
  induction 1 as [c cs (e & He)|c cs Hex IH]; intros i updated removals m;
    rewrite ManagerFacts.reconcile_loop_step.
  - unfold fetched in He.
    destruct (fst (getContainerBinding bindings (bindingName c) (name c) empty_registry))
      as [stub|e'];
      [discriminate|]. cbn. eauto.
  - destruct (fst (getContainerBinding bindings (bindingName c) (name c) empty_registry))
      as [stub|e'];
      [|cbn; eauto].
    cbv zeta. destruct (isTerminalState (unit_state stub)); apply IH.
Qed.

(** X14.  A record whose pool does not resolve blocks reconciliation: the pass
    ends with an error and stores nothing, so the directory, terminal
    records included, stays as it was. *)
Theorem pass_aborts_on_unresolved_pool
        (bindings : gmap string DurableObjectNamespace)
        (unit_state : Stub -> ContainerState) (policy : Stub -> M Mgr bool)
        (cs : list ContainerInfo) (m : Mgr) :
  keeps_storage policy ->
  containers m = Some cs ->
  Exists (fun c => exists e, fetched bindings unit_state c = Throw e) cs ->
  exists e,
    fst (reconcile bindings unit_state policy m) = Throw e
    /\ containers (snd (reconcile bindings unit_state policy m)) = containers m
    /\ puts (snd (reconcile bindings unit_state policy m)) = puts m
    /\ alarm_at (snd (reconcile bindings unit_state policy m)) = alarm_at m.
Proof.
  intros Hk Hcs Hex.
  destruct (loop_throws_on_unresolved_pool bindings unit_state policy cs Hex 0%nat [] [] m)
    as [e He].
  destruct (ManagerFacts.reconcile_loop_frame bindings unit_state policy Hk cs 0 [] [] m)
    as (Hc & Ha & Hp).
  exists e. unfold reconcile, reconcile_of, bind, gets. rewrite Hcs.
  unfold reconcile_loop in *.
  destruct (reconcile_loop_of bindings unit_state (AsyncPolicy policy) 0 cs [] [] m)
    as [r m1].
  cbn [fst snd] in *. subst r. cbn [fst snd]. rewrite <- Hcs. auto.
Qed.

Lemma pass_aborts_on_unresolved_pool_witness :
  exists e,
    fst (reconcile pools (fun _ => stopped) defaultHandleTerminalState registry_lost)
    = Throw e
    /\ containers (snd (reconcile pools (fun _ => stopped) defaultHandleTerminalState
                                  registry_lost)) = containers registry_lost
    /\ puts (snd (reconcile pools (fun _ => stopped) defaultHandleTerminalState
                            registry_lost)) = puts registry_lost
    /\ alarm_at (snd (reconcile pools (fun _ => stopped) defaultHandleTerminalState
                                registry_lost)) = alarm_at registry_lost.
Proof.
  apply (pass_aborts_on_unresolved_pool pools (fun _ => stopped)
           defaultHandleTerminalState [mkInfo opts0 "job-b" starting "huge"] registry_lost).
  - intros c m. repeat split.
  - reflexivity.
  - constructor. exists "No container binding found for name: 'huge'". reflexivity.
Defined.

Lemma only_sends_keeps_storage (policy : Stub -> M Mgr bool)
      (policy_calls : Stub -> list Rpc) :
  ManagerRuns.only_sends policy policy_calls -> keeps_storage policy.
Proof. intros H c m. rewrite (H c m). repeat split. Qed.

Lemma loop_calls (bindings : gmap string DurableObjectNamespace)
      (unit_state : Stub -> ContainerState) (policy : Stub -> M Mgr bool)
      (policy_calls : Stub -> list Rpc) (cs : list ContainerInfo) :
  ManagerRuns.only_sends policy policy_calls ->
  Forall (fun c => exists st, fetched bindings unit_state c = Ok st) cs ->
  forall i updated removals m,
    calls (snd (reconcile_loop bindings unit_state policy i cs updated removals m))
    = (calls m
       ++ flat_map (ManagerRuns.pass_calls bindings unit_state policy_calls) cs)%list.
Proof.
  intros Hsend. induction 1 as [|c cs (st & Hst) Hall IH]; intros i updated removals m.
  - cbn. rewrite app_nil_r. reflexivity.
  - rewrite ManagerFacts.reconcile_loop_step. cbn [flat_map].
    unfold ManagerRuns.pass_calls at 1. unfold fetched in Hst.
    destruct (fst (getContainerBinding bindings (bindingName c) (name c) empty_registry))
      as [stub|e];
      [|discriminate].
    cbv zeta. destruct (isTerminalState (unit_state stub)); rewrite IH.
    + rewrite (Hsend stub). cbn. rewrite <- !app_assoc. reflexivity.
    + cbn. rewrite <- !app_assoc. reflexivity.
Qed.

Lemma reconcile_calls (bindings : gmap string DurableObjectNamespace)
      (unit_state : Stub -> ContainerState) (policy : Stub -> M Mgr bool)
      (policy_calls : Stub -> list Rpc) (cs : list ContainerInfo) (m : Mgr) :
  ManagerRuns.only_sends policy policy_calls ->
  containers m = Some cs ->
  Forall (fun c => exists st, fetched bindings unit_state c = Ok st) cs ->
  calls (snd (reconcile bindings unit_state policy m))
  = (calls m ++ flat_map (ManagerRuns.pass_calls bindings unit_state policy_calls) cs)%list.
Proof.
  intros Hsend Hcs Hall.
  pose proof (loop_calls bindings unit_state policy policy_calls cs Hsend Hall 0 [] [] m)
    as Hcalls.
  pose proof (ManagerFacts.reconcile_loop_result bindings unit_state policy cs 0 [] [] m
                Hall) as Hres.
  unfold reconcile, reconcile_of, bind, gets. rewrite Hcs.
  unfold reconcile_loop in *.
  destruct (reconcile_loop_of bindings unit_state (AsyncPolicy policy) 0 cs [] [] m)
    as [r m1].
  cbn [fst snd] in *. subst r. rewrite ManagerFacts.removal_loop_noop. exact Hcalls.
Qed.

Lemma default_policy_only_sends :
  ManagerRuns.only_sends defaultHandleTerminalState (fun c => [RpcDestroy c]).
Proof. intros c m. reflexivity. Qed.

(** X15.  A pass under the default policy, when the pool of every record
    resolves: it asks the supervisor of each record for its state, in
    directory order, and sends [destroy] to exactly the supervisors that
    reported a terminal state, right after their answer; it sends nothing
    else. *)
Theorem default_pass_destroys_terminal_units
        (bindings : gmap string DurableObjectNamespace)
        (unit_state : Stub -> ContainerState) (cs : list ContainerInfo) (m : Mgr) :
  containers m = Some cs ->
  Forall (fun c => exists st, fetched bindings unit_state c = Ok st) cs ->
  calls (snd (reconcile bindings unit_state defaultHandleTerminalState m))
  = (calls m
     ++ flat_map (ManagerRuns.pass_calls bindings unit_state (fun c => [RpcDestroy c]))
                 cs)%list.
Proof.
  intros Hcs Hall.
  exact (reconcile_calls bindings unit_state defaultHandleTerminalState
           (fun c => [RpcDestroy c]) cs m default_policy_only_sends Hcs Hall).
Qed.

Lemma default_pass_destroys_terminal_units_witness :
  calls (snd (reconcile pools (fun _ => stopped) defaultHandleTerminalState
                        registry_job_a))
  = [RpcState (mkNamespace "CONTAINER_LARGE", "job-a");
     RpcDestroy (mkNamespace "CONTAINER_LARGE", "job-a")].
Proof.
  apply (default_pass_destroys_terminal_units pools (fun _ => stopped) [job_a]
           registry_job_a).
  - reflexivity.
  - constructor; [|constructor]. exists stopped. reflexivity.
Defined.

Lemma requestContainer_keeps_storage (bindings : gmap string DurableObjectNamespace)
      (unit_fetch : Stub -> Request -> Result Response) (nm : string) (request : Request)
      (m : Mgr) :
  containers (snd (requestContainer bindings unit_fetch nm request m)) = containers m.
Proof.
  unfold requestContainer, bind, gets.
  destruct (containers m) as [cs|] eqn:Hcs; [|cbn; congruence].
  destruct (List.filter (fun c => String.eqb (name c) nm) cs) as [|i0 [|i1 rest]];
    [cbn; congruence| |cbn; congruence].
  unfold bind.
  rewrite (ManagerFacts.getContainerBinding_pure bindings (bindingName i0) nm m m).
  destruct (fst (getContainerBinding bindings (bindingName i0) nm m)); cbn; congruence.
Qed.

Lemma loop_updated_nonterminal (bindings : gmap string DurableObjectNamespace)
      (unit_state : Stub -> ContainerState) (policy : Stub -> M Mgr bool)
      (cs : list ContainerInfo) :
  forall i updated removals m u r,
    Forall ManagerRuns.nonterminal updated ->
    fst (reconcile_loop bindings unit_state policy i cs updated removals m) = Ok (u, r) ->
    Forall ManagerRuns.nonterminal u.
Proof.
  induction cs as [|c cs IH]; intros i updated removals m u r Hupd.
  - cbn. intros [= <- _]. exact Hupd.
  - rewrite ManagerFacts.reconcile_loop_step.
    destruct (fst (getContainerBinding bindings (bindingName c) (name c) empty_registry))
      as [stub|e];
      [|discriminate].
    cbv zeta. destruct (isTerminalState (unit_state stub)) eqn:Hst.
    + apply IH. exact Hupd.
    + apply IH. apply Forall_app. split; [exact Hupd|].
      constructor; [exact Hst | constructor].
Qed.

Lemma reconcile_directory_nonterminal (bindings : gmap string DurableObjectNamespace)
      (unit_state : Stub -> ContainerState) (policy : Stub -> M Mgr bool) (m : Mgr) :
  keeps_storage policy ->
  Forall ManagerRuns.nonterminal (directory m) ->
  Forall ManagerRuns.nonterminal (directory (snd (reconcile bindings unit_state policy m))).
Proof.
  intros Hk Hdir. unfold reconcile, reconcile_of, bind, gets. unfold directory in Hdir.
  destruct (containers m) as [cs|] eqn:Hcs;
    [|unfold directory; cbn; rewrite Hcs; exact Hdir].
  pose proof (loop_updated_nonterminal bindings unit_state policy cs 0 [] [] m) as Hu.
  destruct (ManagerFacts.reconcile_loop_frame bindings unit_state policy Hk cs 0 [] [] m)
    as (Hc & _ & _).
  unfold reconcile_loop in *.
  destruct (reconcile_loop_of bindings unit_state (AsyncPolicy policy) 0 cs [] [] m)
    as [[[u r]|e] m1];
    cbn [fst snd] in *.
  - rewrite ManagerFacts.removal_loop_noop. cbn.
    apply (Hu u r); [constructor | reflexivity].
  - unfold directory. rewrite Hc, Hcs. exact Hdir.
Qed.

(** X16.  The directory of a registry whose [handleTerminalState] is declared
    [async], as in the base class and in index.ts, never shows a
    terminal state: in every registry that operations lead to from empty
    storage, whatever the units answer and for every such policy that
    leaves storage alone, no record has the state "stopped" or "failed".
    The declaration matters: with the same body [return false] in a
    method that is not declared [async], creating "job-a" and running
    one pass while its supervisor reports "stopped" leaves the record in
    the directory with the state "stopped". *)
Theorem directory_never_terminal :
  (forall (bindings : gmap string DurableObjectNamespace)
          (policy : Stub -> M Mgr bool) (m : Mgr),
      keeps_storage policy ->
      ManagerRuns.reachable bindings (AsyncPolicy policy) m ->
      Forall ManagerRuns.nonterminal (directory m))
  /\ (let step := ManagerRuns.run pools (SyncPolicy retainHandleTerminalState)
                                  (fun _ => stopped) echo_fetch in
      let passed := step ManagerRuns.OpUpdate
                         (step (ManagerRuns.OpNew opts0 "job-a" "large")
                               empty_registry) in
      ManagerRuns.reachable pools (SyncPolicy retainHandleTerminalState) passed
      /\ directory passed = [set_state stopped job_a]).
Proof.
  split.
  - intros bindings policy m Hk.
    induction 1 as [|unit_state unit_fetch op m Hm IH]; [constructor|].
    assert (Hnew : forall nm opts pool,
               Forall ManagerRuns.nonterminal
                      (directory (snd (addContainer nm opts pool m)))).
    { intros nm opts pool. rewrite addContainer_result. cbn.
      apply Forall_app. split; [exact IH|]. constructor; [reflexivity | constructor]. }
    destruct op as [now|opts nm pool|nm request|nm| |nm opts pool| |now];
      cbn [ManagerRuns.run].
    + clear Hnew Hm. destruct m as [cs al ps cl]. destruct al; exact IH.
    + destruct (fst (getContainerBinding bindings pool nm m)) as [stub|e] eqn:Hstub.
      * rewrite (newContainer_ok bindings opts nm pool stub m Hstub). cbn.
        apply Forall_app. split; [exact IH|]. constructor; [reflexivity | constructor].
      * rewrite (newContainer_rejected bindings opts nm pool e m Hstub). exact IH.
    + unfold directory in *. rewrite requestContainer_keeps_storage. exact IH.
    + rewrite rmContainer_never_removes_lemma. exact IH.
    + exact IH.
    + apply Hnew.
    + unfold updateContainerStates_of, bind, call_async.
      fold (reconcile bindings unit_state policy).
      pose proof (reconcile_directory_nonterminal bindings unit_state policy m Hk IH)
        as H.
      destruct (reconcile bindings unit_state policy m) as [[[]|e] m']; exact H.
    + unfold alarm_of, try_finally, updateContainerStates_of, bind, call_async.
      fold (reconcile bindings unit_state policy).
      pose proof (reconcile_directory_nonterminal bindings unit_state policy m Hk IH)
        as H.
      destruct (reconcile bindings unit_state policy m) as [[[]|e] m']; cbn [snd] in H;
        destruct m' as [cs al ps cl]; destruct al; exact H.
  - cbv zeta. split; [|reflexivity].
    apply ManagerRuns.reach_run, ManagerRuns.reach_run, ManagerRuns.reach_empty.
Qed.

Lemma directory_never_terminal_witness :
  Forall ManagerRuns.nonterminal
         (directory (ManagerRuns.run pools (AsyncPolicy defaultHandleTerminalState)
                                     (fun _ => stopped) echo_fetch
                                     (ManagerRuns.OpNew opts0 "job-a" "large")
                                     empty_registry)).
Proof.
  apply (proj1 directory_never_terminal pools defaultHandleTerminalState).
  - intros c m. repeat split.
  - apply ManagerRuns.reach_run, ManagerRuns.reach_empty.
Defined.

End RegistryFacts.

(** ** The concrete classes and the front door of index.ts *)

Module IndexFacts.

Import Container Manager.

(** X17.  [MyContainer.healthCheck] never answers: whatever the port would
    answer, the call is rejected with "wrap is not defined" before any
    request is made, and the supervisor is untouched.  [wrap] and the two
    error classifiers are private to container.ts. *)
Theorem healthCheck_always_rejects (answer : Result Index.PortResponse) (s : Sup) :
  Index.healthCheck answer s = (Throw "wrap is not defined", s)
  /\ Js.typeof_ident Index.module_scope "wrap" = "undefined"
  /\ Js.typeof_ident Index.module_scope "isNotListeningError" = "undefined"
  /\ Js.typeof_ident Index.module_scope "noContainerYetError" = "undefined"
  /\ Js.typeof_ident Container.module_scope "wrap" = "function".
Proof. repeat split. Qed.

Lemma index_policy_rejects (container : Stub) (m : Mgr) :
  Index.handleTerminalState container m = (Throw "c is not defined", m).
Proof. reflexivity. Qed.

Lemma index_policy_only_sends :
  ManagerRuns.only_sends Index.handleTerminalState (fun _ => []).
Proof.
  intros c m. rewrite index_policy_rejects. destruct m as [cs al ps cl].
  cbn. rewrite app_nil_r. reflexivity.
Qed.

(** X18.  A pass under the policy of [MyContainerManager], when the pool of
    every record resolves.  The policy is rejected on every call ("c is
    not defined": its parameter is [container]) and sends nothing; the
    pass drops the records whose supervisor reported a terminal state all
    the same, and no [destroy] is ever sent: the calls of the pass are
    the state requests alone. *)
Theorem index_pass_removes_without_destroy
        (unit_state : Stub -> ContainerState) (cs : list ContainerInfo) (m : Mgr) :
  containers m = Some cs ->
  Forall (fun c => exists st, fetched pools unit_state c = Ok st) cs ->
  let m' := snd (reconcile pools unit_state Index.handleTerminalState m) in
  (forall c m0, Index.handleTerminalState c m0 = (Throw "c is not defined", m0))
  /\ fst (reconcile pools unit_state Index.handleTerminalState m) = Ok tt
  /\ directory m' = refreshed pools unit_state cs
  /\ Forall ManagerRuns.nonterminal (directory m')
  /\ calls m'
     = (calls m ++ flat_map (ManagerRuns.pass_calls pools unit_state (fun _ => [])) cs)%list
  /\ (forall c, ~ In (RpcDestroy c)
                     (flat_map (ManagerRuns.pass_calls pools unit_state (fun _ => [])) cs)).
Proof.
  intros Hcs Hall. cbv zeta.
  pose proof (RegistryFacts.only_sends_keeps_storage _ _ index_policy_only_sends) as Hk.
  pose proof (RegistryFacts.reconcile_calls pools unit_state Index.handleTerminalState
                (fun _ => []) cs m index_policy_only_sends Hcs Hall) as Hcalls.
  destruct (ManagerFacts.reconcile_result pools unit_state Index.handleTerminalState Hk cs m
              Hcs Hall) as (m' & Hrun & Hdir & _ & _).
  rewrite Hrun in *. cbn [fst snd] in *.
  repeat match goal with |- _ /\ _ => split end.
  - exact index_policy_rejects.
  - reflexivity.
  - unfold directory. rewrite Hdir. reflexivity.
  - unfold directory. rewrite Hdir. clear.
    induction cs as [|c cs IH]; cbn [refreshed]; [constructor|].
    destruct (fetched pools unit_state c) as [st|e]; [|exact IH].
    destruct (isTerminalState st) eqn:Hst; [exact IH|].
    constructor; [exact Hst | exact IH].
  - exact Hcalls.
  - intros c Hin. apply in_flat_map in Hin. destruct Hin as (c0 & _ & Hin).
    unfold ManagerRuns.pass_calls in Hin.
    destruct (fst (getContainerBinding pools (bindingName c0) (name c0) empty_registry))
      as [stub|e]; [|exact Hin].
    destruct Hin as [Hin|Hin]; [discriminate|].
    destruct (isTerminalState (unit_state stub)); exact Hin.
Qed.

Lemma index_pass_removes_without_destroy_witness :
  directory (snd (reconcile pools (fun _ => stopped) Index.handleTerminalState
                            registry_job_a)) = []
  /\ calls (snd (reconcile pools (fun _ => stopped) Index.handleTerminalState
                           registry_job_a))
     = [RpcState (mkNamespace "CONTAINER_LARGE", "job-a")].
Proof.
  assert (Hall : Forall (fun c => exists st, fetched pools (fun _ => stopped) c = Ok st)
                        [job_a]).
  { constructor; [|constructor]. exists stopped. reflexivity. }
  pose proof (index_pass_removes_without_destroy (fun _ => stopped) [job_a] registry_job_a
                eq_refl Hall) as (_ & _ & Hdir & _ & Hcalls & _).
  split; [exact Hdir | exact Hcalls].
Defined.

Lemma start_is_not_container (pathname : string) :
  String.prefix "/start" pathname = true -> String.prefix "/container/" pathname = false.
Proof.
  intros H. destruct pathname as [|a rest]; cbn [String.prefix] in *; [discriminate|].
  destruct (ascii_dec "/" a); [|discriminate].
  destruct rest as [|b rest]; cbn [String.prefix] in *; [discriminate|].
  destruct (ascii_dec "s" b) as [<-|]; [|discriminate].
  destruct (ascii_dec "c" "s") as [E|]; [discriminate E | reflexivity].
Qed.

(** X19.  Outside [/container/] the front door never rejects and always answers
    with status 200: a start request that does not parse, or that names a
    pool that is not configured, is answered like any other. *)
Theorem front_door_never_rejects_outside_container
        (unit_fetch : Stub -> Request -> Result Response)
        (pathname : string) (parsed : Result Index.StartBody) (request : Request) (m : Mgr) :
  String.prefix "/container/" pathname = false ->
  exists payload,
    fst (Index.fetch unit_fetch pathname parsed request m) = Ok (Index.Built 200 payload).
Proof.
  intros Hc. unfold Index.fetch. rewrite Hc.
  destruct (String.prefix "/start" pathname).
  - unfold try_catch, bind. destruct parsed as [b|e]; [|cbn; eauto].
    destruct (newContainer pools _ _ _ m) as [[[]|e] m']; cbn; eauto.
  - destruct (String.prefix "/list" pathname); cbn; eauto.
Qed.

Lemma front_door_never_rejects_outside_container_witness :
  exists payload,
    fst (Index.fetch echo_fetch "/start" (Throw "Unexpected end of JSON input")
                     request_job_a registry_job_a) = Ok (Index.Built 200 payload).
Proof.
  apply (front_door_never_rejects_outside_container echo_fetch "/start"
           (Throw "Unexpected end of JSON input") request_job_a registry_job_a).
  reflexivity.
Defined.

(** X20.  The [/start] route.  A body that does not parse is answered with
    the error's message and leaves the registry untouched.  So is a
    size for which [getContainerBinding] fails: a size that is no
    configured pool, with the message of [getBinding], and a size that
    names an inherited member of the pools object, such as
    "constructor", with "binding.idFromName is not a function".
    Otherwise the unit is created as [newContainer] does, with the
    options, name and size of the body, and the answer is "Container
    starting". *)
Theorem front_door_start
        (unit_fetch : Stub -> Request -> Result Response)
        (pathname : string) (parsed : Result Index.StartBody) (request : Request) (m : Mgr) :
  String.prefix "/start" pathname = true ->
  (forall e, parsed = Throw e ->
     Index.fetch unit_fetch pathname parsed request m
     = (Ok (Index.Built 200 (Index.PError "Error parsing request" 500 e)), m))
  /\ (forall b e, parsed = Ok b ->
        fst (getContainerBinding pools (Index.sb_size b) (Index.sb_name b) m) = Throw e ->
        Index.fetch unit_fetch pathname parsed request m
        = (Ok (Index.Built 200 (Index.PError "Error parsing request" 500 e)), m))
  /\ (forall b stub, parsed = Ok b ->
        fst (getContainerBinding pools (Index.sb_size b) (Index.sb_name b) m) = Ok stub ->
        let opts := mkOpts (Index.sb_envVars b) (Index.sb_entrypoint b)
                           (Index.sb_enableInternet b) in
        let m' := snd (Index.fetch unit_fetch pathname parsed request m) in
        fst (Index.fetch unit_fetch pathname parsed request m)
        = Ok (Index.Built 200 (Index.PText "Container starting"))
        /\ directory m'
           = (directory m ++ [mkInfo opts (Index.sb_name b) starting (Index.sb_size b)])%list
        /\ calls m' = (calls m ++ [RpcStart stub opts])%list)
  /\ (forall b, parsed = Ok b ->
        fst (getContainerBinding pools (Index.sb_size b) (Index.sb_name b) m)
        = match fst (getBinding pools (Index.sb_size b) m) with
          | Ok (Namespace ns) => Ok (ns, Index.sb_name b)
          | Ok (Inherited _) => Throw "binding.idFromName is not a function"
          | Throw e => Throw e
          end).
Proof.
  intros Hs. unfold Index.fetch. rewrite (start_is_not_container pathname Hs), Hs.
  repeat match goal with |- _ /\ _ => split end.
  - intros e ->. reflexivity.
  - intros b e -> He. unfold try_catch, bind.
    rewrite (RegistryFacts.newContainer_rejected pools _ (Index.sb_name b)
               (Index.sb_size b) e m He).
    reflexivity.
  - intros b stub -> Hstub. cbv zeta. unfold try_catch, bind.
    rewrite (RegistryFacts.newContainer_ok pools _ (Index.sb_name b) (Index.sb_size b)
               stub m Hstub).
    repeat split.
  - intros b _. unfold getContainerBinding, bind.
    rewrite (ManagerFacts.getBinding_pure pools (Index.sb_size b) m m).
    destruct (fst (getBinding pools (Index.sb_size b) m)) as [[ns|member]|e];
      reflexivity.
Qed.

Lemma front_door_start_witness :
  Index.fetch echo_fetch "/start" (Throw "Unexpected end of JSON input") request_job_a
              registry_job_a
  = (Ok (Index.Built 200 (Index.PError "Error parsing request" 500
                                       "Unexpected end of JSON input")), registry_job_a)
  /\ Index.fetch echo_fetch "/start" (Ok (Index.mkStartBody "job-b" None None None "huge"))
                 request_job_a registry_job_a
     = (Ok (Index.Built 200 (Index.PError "Error parsing request" 500
                               "No container binding found for name: 'huge'")),
        registry_job_a)
  /\ Index.fetch echo_fetch "/start"
                 (Ok (Index.mkStartBody "job-b" None None None "constructor"))
                 request_job_a registry_job_a
     = (Ok (Index.Built 200 (Index.PError "Error parsing request" 500
                               "binding.idFromName is not a function")),
        registry_job_a)
  /\ fst (Index.fetch echo_fetch "/start"
                      (Ok (Index.mkStartBody "job-b" None None None "small"))
                      request_job_a registry_job_a)
     = Ok (Index.Built 200 (Index.PText "Container starting")).
Proof.
  refine (conj _ (conj _ (conj _ _))).
  - exact (proj1 (front_door_start echo_fetch "/start" (Throw "Unexpected end of JSON input")
                    request_job_a registry_job_a eq_refl)
             "Unexpected end of JSON input" eq_refl).
  - exact (proj1 (proj2 (front_door_start echo_fetch "/start"
                           (Ok (Index.mkStartBody "job-b" None None None "huge"))
                           request_job_a registry_job_a eq_refl))
             (Index.mkStartBody "job-b" None None None "huge")
             "No container binding found for name: 'huge'" eq_refl eq_refl).
  - exact (proj1 (proj2 (front_door_start echo_fetch "/start"
                           (Ok (Index.mkStartBody "job-b" None None None "constructor"))
                           request_job_a registry_job_a eq_refl))
             (Index.mkStartBody "job-b" None None None "constructor")
             "binding.idFromName is not a function" eq_refl eq_refl).
  - exact (proj1 (proj1 (proj2 (proj2 (front_door_start echo_fetch "/start"
                                  (Ok (Index.mkStartBody "job-b" None None None "small"))
                                  request_job_a registry_job_a eq_refl)))
                    (Index.mkStartBody "job-b" None None None "small")
                    (mkNamespace "CONTAINER_SMALL", "job-b") eq_refl eq_refl)).
Defined.

(** X21.  The [/container/] route addresses the unit named by the last segment
    of the path: for a path under [/container/] that ends in [/] followed
    by a name without [/], the request goes to [requestContainer] with
    that name, its response is passed through and its rejection is the
    rejection of the front door. *)
Theorem front_door_routes_by_last_segment
        (unit_fetch : Stub -> Request -> Result Response)
        (p nm : string) (parsed : Result Index.StartBody) (request : Request) (m : Mgr) :
  String.prefix "/container/" (p ++ String "/"%char nm) = true ->
  JsString.free_of "/"%char nm = true ->
  Index.fetch unit_fetch (p ++ String "/"%char nm) parsed request m
  = match requestContainer pools unit_fetch nm request m with
    | (Ok r, m') => (Ok (Index.Forwarded r), m')
    | (Throw e, m') => (Throw e, m')
    end.
Proof.
  intros Hc Hfree. unfold Index.fetch. rewrite Hc.
  rewrite (HelperFacts.last_segment p nm Hfree). unfold bind.
  destruct (requestContainer pools unit_fetch nm request m) as [[r|e] m']; reflexivity.
Qed.

Lemma front_door_routes_by_last_segment_witness :
  Index.fetch echo_fetch "/container/job-a" (Throw "no body") request_job_a registry_job_a
  = (Ok (Index.Forwarded (mkResponse 200 "job-a")),
     snd (send (RpcFetch (mkNamespace "CONTAINER_LARGE", "job-a") request_job_a)
               registry_job_a))
  /\ Index.fetch echo_fetch "/container/x/job-b" (Throw "no body") request_job_a
                 registry_job_a
     = (Throw "No record found for container: job-b", registry_job_a).
Proof.
  split.
  - exact (front_door_routes_by_last_segment echo_fetch "/container" "job-a"
             (Throw "no body") request_job_a registry_job_a eq_refl eq_refl).
  - exact (front_door_routes_by_last_segment echo_fetch "/container/x" "job-b"
             (Throw "no body") request_job_a registry_job_a eq_refl eq_refl).
Defined.

End IndexFacts.

(** ** The wake-up and its health-check branch *)

Module ProbeFacts.

Import Container.

(** X23.  A wake-up with the hooks of [CommonContainer], with or without a
    health check: it returns normally, what [state()] reports is the same
    before and after, that state is now in storage, and the monitor, its
    callbacks and the unit are untouched. *)
Theorem wakeup_keeps_reported_state (hc : option HealthCheck) (now : Z) (s : Sup) :
  let s' := snd (alarm noHook noHook hc now s) in
  fst (alarm noHook noHook hc now s) = Ok tt
  /\ reported s' = reported s
  /\ stored s' = Some (reported s)
  /\ monitor s' = monitor s /\ handlers s' = handlers s
  /\ c_running s' = c_running s /\ launches s' = launches s /\ issued s' = issued s.
Proof.
  cbv zeta. rewrite ContainerFacts.alarm_writes_back. repeat split.
Qed.

(** X24.  The health-check branch of the wake-up (lines 114-150), entered with
    a health check and the state that was read.  An error of the check
    leaves [starting] when the state was [starting] and [failed]
    otherwise; a [Response] leaves [unhealthy]; "ok" leaves [running];
    "not_listening" and "no_container_yet" leave [starting]; any other
    string leaves the state as it was. *)
Theorem health_check_branch_table (hc : HealthCheck) (st : ContainerState) (s : Sup) :
  reported s = st ->
  reported (snd (probe noHook noHook (Some hc) st s)) =
    match hc s with
    | Throw _ => if ContainerState_eqb st starting then starting else failed
    | Ok (HResponse _) => unhealthy
    | Ok (HString r) =>
        if String.eqb r "ok" then running
        else if String.eqb r "not_listening" || String.eqb r "no_container_yet"
             then starting else st
    end.
Proof. apply ContainerFacts.probe_table. Qed.

Lemma health_check_branch_table_witness :
  reported (snd (probe noHook noHook (Some (fun _ => Ok (HString "not_listening")))
                       running started)) = starting
  /\ reported (snd (probe noHook noHook (Some (fun _ => Throw "internal error"))
                          running started)) = failed.
Proof.
  split.
  - exact (health_check_branch_table (fun _ => Ok (HString "not_listening")) running
             started eq_refl).
  - exact (health_check_branch_table (fun _ => Throw "internal error") running started
             eq_refl).
Defined.

Lemma error_classifiers_witness :
  ContainerHelpers.isNotListeningError
    "Error: the container is not listening in the TCP address 10.0.0.1:8080" = true
  /\ ContainerHelpers.noContainerYetError
       "there is no container instance that can be provided to this durable object" = true.
Proof.
  split.
  - apply (proj1 (HelperFacts.error_classifiers_are_substring_tests _)).
    exists "Error: ", " in the TCP address 10.0.0.1:8080". reflexivity.
  - apply (proj2 (HelperFacts.error_classifiers_are_substring_tests _)).
    exists "", " that can be provided to this durable object". reflexivity.
Defined.

End ProbeFacts.
